(** * Outlier injector: a shallow embedding of [main.py]

    The program reads a delimited file into a pandas [DataFrame], appends
    [num_outliers] values drawn by [numpy.random.normal] to one numeric
    column, and writes the result.  This development embeds

    - the part of pandas and numpy the program calls
      ([in df.columns], [df[c]], [is_numeric_dtype], [Series.mean],
      [Series.std], [np.random.normal], [pd.DataFrame], [pd.concat]),
    - [inject_outliers] itself, with its [try]/[except] handlers and its
      log lines,
    - [main], with the command line parser of [setup_argparse], over an
      abstract file system,
    - a heap of Python objects, to speak about aliasing of the argument,

    and proves the properties of the specification about them.

    Numbers are IEEE 754 binary64 values ([SpecFloat], precision 53,
    [emax] 1024).  What is modelled of the libraries, and what is left to
    them:
    - a column is of dtype int64, float64 or object, the dtypes the
      loader gives to integers, to decimal numbers and to text (columns of
      booleans or dates are not modelled); pandas computes with numpy
      (sums are numpy's blocked pairwise [add.reduce]) and [pd.concat]
      converts an int64 column to float64 when it puts a float64 column,
      were it empty, or missing values under it;
    - the process-global generator is a state [bitgen] with one primitive,
      a standard-normal draw [legacy_gauss], left abstract;
    - whether an array of a given size can be allocated is left to an
      oracle [allocation];
    - Python's [int] and [float] on strings, and argparse on command lines
      that have an argument starting with a dash other than a leading
      [-h] or [--help], are left abstract. *)

From stdpp Require Import gmap.
From Stdlib Require Import ZArith List Ascii String Bool Lia DecimalString.
From Stdlib Require Import Floats.SpecFloat.
Import ListNotations.
Open Scope Z_scope.

(** ** binary64 arithmetic *)

Module F64.

Definition prec : Z := 53.
Definition emax : Z := 1024.

Definition float : Type := spec_float.

Definition zero : float := S754_zero false.
Definition neg_zero : float := S754_zero true.
Definition nan : float := S754_nan.
Definition inf : float := S754_infinity false.

Definition add : float -> float -> float := SFadd prec emax.
Definition sub : float -> float -> float := SFsub prec emax.
Definition mul : float -> float -> float := SFmul prec emax.
Definition div : float -> float -> float := SFdiv prec emax.
Definition sqrt : float -> float := SFsqrt prec emax.

(** Python's [<=], [<] and [==] on floats: false as soon as one side is NaN. *)
Definition leb : float -> float -> bool := SFleb.
Definition ltb : float -> float -> bool := SFltb.
Definition eqb : float -> float -> bool := SFeqb.

(** Conversion of a Python [int], or of an int64 entry, to a double, with
    rounding to the nearest. *)
Definition of_Z (z : Z) : float := binary_normalize prec emax z 0 false.

Definition is_nan (x : float) : bool :=
  match x with S754_nan => true | _ => false end.

Definition is_finite (x : float) : bool :=
  match x with S754_zero _ | S754_finite _ _ _ => true | _ => false end.

Definition is_zero (x : float) : bool :=
  match x with S754_zero _ => true | _ => false end.

(** C's [signbit]; a NaN has no sign in [spec_float]. *)
Definition signbit (x : float) : bool :=
  match x with
  | S754_zero s | S754_infinity s | S754_finite s _ _ => s
  | S754_nan => false
  end.

(** Same value: identical, or two zeros (which differ by sign at most).
    On non-NaN values this is Python's [==]; it also relates NaN to NaN. *)
Definition same (x y : float) : Prop :=
  x = y \/ (is_zero x = true /\ is_zero y = true).

End F64.

Abbreviation float := F64.float.

(** ** numpy's sum

    [ndarray.sum] is [np.add.reduce]: the accumulator starts at [-0.0]
    (at [0.0] when there is nothing to add) and one call of the inner loop
    adds to it the pairwise sum of the elements it is given. *)

Module Numpy.

(** [r[j] += a[i + j]], for the eight accumulators. *)
Fixpoint add_each (r blk : list float) : list float :=
  match r, blk with
  | x :: r', y :: blk' => F64.add x y :: add_each r' blk'
  | _, _ => r
  end.

(** The loop over the [k] full blocks of eight that follow the first. *)
Fixpoint accumulate (k : nat) (r a : list float) : list float * list float :=
  match k with
  | O => (r, a)
  | S k' => accumulate k' (add_each r (firstn 8 a)) (skipn 8 a)
  end.

(** [((r0 + r1) + (r2 + r3)) + ((r4 + r5) + (r6 + r7))]. *)
Definition combine8 (r : list float) : float :=
  match r with
  | [r0; r1; r2; r3; r4; r5; r6; r7] =>
      F64.add (F64.add (F64.add r0 r1) (F64.add r2 r3))
              (F64.add (F64.add r4 r5) (F64.add r6 r7))
  | _ => F64.nan     (* there are eight accumulators *)
  end.

(** A block of 8 to 128 elements: eight accumulators over the full blocks
    of eight, combined, then the rest one by one. *)
Definition block_sum (a : list float) : float :=
  let n := List.length a in
  let '(r, rest) := accumulate (n / 8 - 1) (firstn 8 a) (skipn 8 a) in
  fold_left F64.add rest (combine8 r).

(** [pairwise_sum(a, n)]: a plain loop from [-0.0] below 8 elements, a
    block up to 128, and two halves above, the first of a length that is a
    multiple of 8.  The depth of the halving is bounded by [fuel]. *)
Fixpoint pairwise_sum_at (fuel : nat) (a : list float) : float :=
  let n := List.length a in
  if (n <? 8)%nat then fold_left F64.add a F64.neg_zero
  else if (n <=? 128)%nat then block_sum a
  else
    match fuel with
    | O => F64.nan                 (* not reached: see [pairwise_sum] *)
    | S fuel' =>
        let n2 := (n / 2 - (n / 2) mod 8)%nat in
        F64.add (pairwise_sum_at fuel' (firstn n2 a))
                (pairwise_sum_at fuel' (skipn n2 a))
    end.

(** Each halving takes elements away, so the length is fuel enough. *)
Definition pairwise_sum (a : list float) : float :=
  pairwise_sum_at (List.length a) a.

(** [a.sum()] of a float64 array: one call of the inner loop. *)
Definition sum (a : list float) : float :=
  match a with
  | [] => F64.zero
  | _ => F64.add F64.neg_zero (pairwise_sum a)
  end.

(** The buffers of at most [size] elements an array is read through when
    its elements have to be converted. *)
Fixpoint buffers_at (fuel size : nat) (a : list Z) : list (list Z) :=
  match fuel, a with
  | _, [] => []
  | O, _ => [a]
  | S fuel', _ => firstn size a :: buffers_at fuel' size (skipn size a)
  end.

Definition NPY_BUFSIZE : nat := 64 * 128.

(** [a.sum(dtype=float64)] of an int64 array: the entries are converted
    buffer by buffer, and the inner loop is called once per buffer. *)
Definition sum_int64 (a : list Z) : float :=
  match a with
  | [] => F64.zero
  | _ =>
      fold_left
        (fun acc buf => F64.add acc (pairwise_sum (List.map F64.of_Z buf)))
        (buffers_at (List.length a) NPY_BUFSIZE a)
        F64.neg_zero
  end.

(** The largest value of a C [npy_intp]. *)
Definition NPY_MAX_INTP : Z := 2 ^ 63 - 1.

End Numpy.

(** ** Python values the program handles *)

Inductive exn_class :=
| TypeError
| ValueError
| FileNotFoundError
| EmptyDataError      (* pandas.errors.EmptyDataError, a ValueError *)
| ParserError         (* pandas.errors.ParserError, a ValueError *)
| InvalidIndexError   (* pandas.errors.InvalidIndexError *)
| MemoryError
| OtherException.     (* any other subclass of Exception *)

Record exn := Exn { exn_cls : exn_class; exn_msg : string }.

(** [isinstance(e, (TypeError, ValueError))]. *)
Definition is_TypeError_or_ValueError (e : exn) : bool :=
  match exn_cls e with
  | TypeError | ValueError | EmptyDataError | ParserError => true
  | _ => false
  end.

Inductive result (A : Type) :=
| Ok (a : A)
| Raise (e : exn).
Arguments Ok {A} a.
Arguments Raise {A} e.

Inductive level := INFO | ERROR.
Definition log := list (level * string).

(** ** Tables *)

(** A cell of a table: a Python [int], a [float], or text.  The missing
    value of every column kind is [np.nan], a float. *)
Inductive cell :=
| CInt (z : Z)
| Num (x : float)
| Str (s : string).

Definition NA : cell := Num F64.nan.

Definition isna (c : cell) : bool :=
  match c with Num x => F64.is_nan x | _ => false end.

(** A column, by dtype.  A float64 column marks a missing entry by NaN; an
    int64 column has none. *)
Inductive Series :=
| Int64 (zs : list Z)
| Float64 (xs : list float)
| Object (cs : list cell).

Definition cells (s : Series) : list cell :=
  match s with
  | Int64 zs => List.map CInt zs
  | Float64 xs => List.map Num xs
  | Object cs => cs
  end.

Definition size (s : Series) : nat := List.length (cells s).

Record DataFrame := mkFrame {
  columns : list (string * Series);   (* in column order *)
  index : list Z                      (* row labels *)
}.

Definition names (df : DataFrame) : list string := List.map fst (columns df).

(** [len(df)]. *)
Definition nrows (df : DataFrame) : nat := List.length (index df).

(** [RangeIndex(n)]. *)
Definition RangeIndex (n : nat) : list Z := List.map Z.of_nat (seq 0 n).

(** The frames pandas can build: unique column labels are not required by
    pandas, but every column has one entry per row. *)
Definition rectangular (df : DataFrame) : Prop :=
  Forall (fun c => size (snd c) = nrows df) (columns df).

(** [Index.is_unique]. *)
Fixpoint is_unique (l : list string) : bool :=
  match l with
  | [] => true
  | x :: rest => negb (existsb (String.eqb x) rest) && is_unique rest
  end.

(** The first column called [c], if any. *)
Fixpoint column (c : string) (cols : list (string * Series)) : option Series :=
  match cols with
  | [] => None
  | (n, s) :: rest => if String.eqb c n then Some s else column c rest
  end.

(** The row at position [i], as the list of its cells in column order. *)
Definition row (df : DataFrame) (i : nat) : list (string * option cell) :=
  List.map (fun c => (fst c, nth_error (cells (snd c)) i)) (columns df).

(** The argument [df] of [inject_outliers] is any Python object. *)
Inductive pyobj :=
| PyFrame (df : DataFrame)
| PyOther.

(** ** The pandas operations the program calls *)

(** [c in df.columns]. *)
Definition contains (c : string) (df : DataFrame) : bool :=
  existsb (String.eqb c) (names df).

(** [df[c]] is a [Series] when exactly one column is labelled [c], and a
    [DataFrame] of all the matching columns when several are. *)
Inductive item :=
| ItemSeries (s : Series)
| ItemFrame (cols : list Series).

Definition getitem (df : DataFrame) (c : string) : result item :=
  match List.filter (fun p => String.eqb c (fst p)) (columns df) with
  | [] => Raise (Exn OtherException c)        (* KeyError *)
  | [p] => Ok (ItemSeries (snd p))
  | ps => Ok (ItemFrame (List.map snd ps))
  end.

(** The dtypes [is_numeric_dtype] accepts, among the three. *)
Definition numeric (s : Series) : bool :=
  match s with
  | Int64 _ | Float64 _ => true
  | Object _ => false
  end.

(** [pd.api.types.is_numeric_dtype]: something that has no single dtype, as
    a [DataFrame], is not numeric. *)
Definition is_numeric_dtype (x : item) : bool :=
  match x with
  | ItemSeries s => numeric s
  | ItemFrame _ => false
  end.

(** *** [pandas.core.nanops] *)

Definition mask (xs : list float) : list bool := List.map F64.is_nan xs.

(** [np.putmask(values, mask, v)]. *)
Definition putmask (values : list float) (m : list bool) (v : float)
  : list float :=
  List.map (fun p : float * bool => if snd p then v else fst p)
           (List.combine values m).

(** The number of entries that are not masked. *)
Definition get_counts (m : list bool) : Z :=
  Z.of_nat (List.length (List.filter negb m)).

(** [nanmean] of a float64 array, with [skipna=True]: the masked entries
    are filled with 0 and summed with the rest, the divisor counts the
    others. *)
Definition nanmean (xs : list float) : float :=
  let m := mask xs in
  let values := putmask xs m F64.zero in
  let the_sum := Numpy.sum values in
  let count := get_counts m in
  if 0 <? count then F64.div the_sum (F64.of_Z count) else F64.nan.

(** [nanmean] of an int64 array: nothing is masked, and the sum is taken
    with [dtype=float64]. *)
Definition nanmean_int64 (zs : list Z) : float :=
  let the_sum := Numpy.sum_int64 zs in
  let count := Z.of_nat (List.length zs) in
  if 0 <? count then F64.div the_sum (F64.of_Z count) else F64.nan.

(** [_get_counts_nanvar]: the count and the divisor [count - ddof], both
    NaN when [count <= ddof]. *)
Definition get_counts_nanvar (m : list bool) (ddof : Z) : float * float :=
  let count := get_counts m in
  if count <=? ddof then (F64.nan, F64.nan)
  else (F64.of_Z count, F64.of_Z (count - ddof)).

(** [nanvar] of a float64 array, with [skipna=True]. *)
Definition nanvar (ddof : Z) (xs : list float) : float :=
  let m := mask xs in
  let '(count, d) := get_counts_nanvar m ddof in
  let values := putmask xs m F64.zero in
  let avg := F64.div (Numpy.sum values) count in
  let sqr := List.map (fun v => let t := F64.sub avg v in F64.mul t t) values in
  let sqr := putmask sqr m F64.zero in
  F64.div (Numpy.sum sqr) d.

Definition nanstd (ddof : Z) (xs : list float) : float :=
  F64.sqrt (nanvar ddof xs).

(** [values.astype("f8")]. *)
Definition astype_f8 (zs : list Z) : list float := List.map F64.of_Z zs.

(** [s.mean()] and [s.std()] of a numeric column, with their defaults
    [skipna=True] and [ddof=1]; [nanvar] converts an int64 array to float64
    before anything else. *)
Definition series_mean (s : Series) : float :=
  match s with
  | Int64 zs => nanmean_int64 zs
  | Float64 xs => nanmean xs
  | Object _ => F64.nan          (* not numeric: see [mean] *)
  end.

Definition series_std (s : Series) : float :=
  match s with
  | Int64 zs => nanstd 1 (astype_f8 zs)
  | Float64 xs => nanstd 1 xs
  | Object _ => F64.nan          (* not numeric: see [std] *)
  end.

(** [x.mean()] and [x.std()].  On what is not a numeric [Series] they do
    not yield a number; the program never gets there. *)
Definition mean (x : item) : result float :=
  match x with
  | ItemSeries (Object _) | ItemFrame _ =>
      Raise (Exn TypeError "Could not convert to numeric")
  | ItemSeries s => Ok (series_mean s)
  end.

Definition std (x : item) : result float :=
  match x with
  | ItemSeries (Object _) | ItemFrame _ =>
      Raise (Exn TypeError "Could not convert to numeric")
  | ItemSeries s => Ok (series_std s)
  end.

(** *** Construction and concatenation *)

(** [pd.DataFrame({c: values})] for an array of floats. *)
Definition DataFrame_of (c : string) (values : list float) : DataFrame :=
  {| columns := [(c, Float64 values)];
     index := RangeIndex (List.length values) |}.

(** What [pd.concat] makes of a column that gets a float or a missing
    value under it: an int64 column becomes float64, each entry converted
    to the nearest double. *)
Definition promoted (s : Series) : Series :=
  match s with
  | Int64 zs => Float64 (astype_f8 zs)
  | _ => s
  end.

(** The column [s] of the first frame, continued by the column of the same
    name of the second frame, or by [k] missing values when it has none. *)
Definition continued (s : Series) (t : option Series) (k : nat) : Series :=
  match s, t with
  | Int64 zs, Some (Int64 ys) => Int64 (zs ++ ys)
  | Object cs, Some t => Object (cs ++ cells t)
  | Object cs, None => Object (cs ++ repeat NA k)
  | _, Some (Object ys) => Object (cells s ++ ys)
  | _, Some t =>
      match promoted s, promoted t with
      | Float64 xs, Float64 ys => Float64 (xs ++ ys)
      | _, _ => Object (cells s ++ cells t)
      end
  | _, None =>
      match promoted s with
      | Float64 xs => Float64 (xs ++ repeat F64.nan k)
      | _ => Object (cells s ++ repeat NA k)
      end
  end.

(** A column that only the second frame has, after [k] missing values. *)
Definition preceded (k : nat) (s : Series) : Series :=
  match promoted s with
  | Float64 ys => Float64 (repeat F64.nan k ++ ys)
  | _ => Object (repeat NA k ++ cells s)
  end.

(** [pd.concat([a, b], ignore_index=True)]: rows of [a], then rows of [b],
    over the union of the columns in order of first appearance, with a new
    [RangeIndex].  Aligning two different column indexes needs unique
    labels. *)
Definition concat (a b : DataFrame) : result DataFrame :=
  if is_unique (names a) && is_unique (names b) then
    Ok {| columns :=
            List.map (fun p => (fst p, continued (snd p) (column (fst p) (columns b)) (nrows b)))
                     (columns a)
            ++ List.map (fun p => (fst p, preceded (nrows a) (snd p)))
                 (List.filter (fun p => negb (contains (fst p) a)) (columns b));
          index := RangeIndex (nrows a + nrows b) |}
  else
    Raise (Exn InvalidIndexError
             "Reindexing only valid with uniquely valued Index objects").

(** The number of cells of the frame [pd.concat] builds from [a] and [b]. *)
Definition concat_cells (a b : DataFrame) : Z :=
  Z.of_nat (nrows a + nrows b)
  * Z.of_nat (List.length (columns a)
              + List.length (List.filter (fun p => negb (contains (fst p) a))
                                         (columns b))).

(** Python's [str] of an [int]. *)
Definition str_of_int (z : Z) : string := NilZero.string_of_int (Z.to_int z).

(** ** The program *)

(** References to Python objects. *)
Definition ref : Type := positive.

(** The parsed command line. *)
Record args := Args {
  input_file : string;
  output_file : string;
  column_name : string;
  num_outliers : Z;
  std_multiplier : float
}.

(** What [parse_args] ends in: a namespace, or [sys.exit(code)]. *)
Inductive parsed :=
| Namespace (a : args)
| SystemExit (code : Z).

(** The [type=] of an argument, and a converted argument. *)
Inductive argtype := AsIs | AsInt | AsFloat.

Inductive value :=
| VStr (s : string)
| VInt (z : Z)
| VFloat (x : float).

(** [setup_argparse]: the five positional arguments, in order.  argparse
    adds the option [-h], [--help]. *)
Definition setup_argparse : list (string * argtype) :=
  [("input_file"%string, AsIs);
   ("output_file"%string, AsIs);
   ("column_name"%string, AsIs);
   ("num_outliers"%string, AsInt);
   ("std_multiplier"%string, AsFloat)].

Definition is_help (s : string) : bool :=
  String.eqb s "-h" || String.eqb s "--help".

(** An argument that starts with a dash. *)
Definition dashed (s : string) : bool :=
  match s with
  | String c _ => Ascii.eqb c "-"%char
  | EmptyString => false
  end.

Section Program.

(** The state of numpy's global generator and its standard-normal draw. *)
Variable bitgen : Type.
Variable legacy_gauss : bitgen -> float * bitgen.

(** What the allocation of an array of so many elements raises, if
    anything: the machine decides. *)
Variable allocation : Z -> option exn.

(** What a call can change: the generator, the log, and the objects. *)
Record world := World {
  rng : bitgen;
  logged : log;
  heap : gmap ref pyobj
}.

(** Computations that may raise. *)
Definition M (A : Type) : Type := world -> result A * world.

Definition ret {A} (a : A) : M A := fun w => (Ok a, w).
Definition raise {A} (e : exn) : M A := fun w => (Raise e, w).
Definition bind {A B} (m : M A) (k : A -> M B) : M B :=
  fun w => match m w with
           | (Ok a, w') => k a w'
           | (Raise e, w') => (Raise e, w')
           end.
Definition lift {A} (r : result A) : M A := fun w => (r, w).

Notation "x <- m ;; k" := (bind m (fun x => k))
  (at level 100, m at next level, right associativity).
Notation "m ;;; k" := (bind m (fun _ => k))
  (at level 100, right associativity).

(** The object a reference points to, as [isinstance] sees it. *)
Definition object_at (w : world) (r : ref) : pyobj :=
  match heap w !! r with
  | Some o => o
  | None => PyOther
  end.

Definition deref (r : ref) : M pyobj :=
  fun w => (Ok (object_at w r), w).

(** A new object, at a reference that was not in use. *)
Definition alloc (o : pyobj) (w : world) : ref * world :=
  let r := fresh (dom (heap w)) in
  (r, {| rng := rng w; logged := logged w; heap := <[r := o]> (heap w) |}).

Definition new (o : pyobj) : M ref :=
  fun w => let '(r, w') := alloc o w in (Ok r, w').

(** The allocation of an array of [k] elements. *)
Definition allocate (k : Z) : M unit :=
  match allocation k with
  | Some e => raise e
  | None => ret tt
  end.

(** [logging.info] and [logging.error]. *)
Definition logging (l : level) (msg : string) : M unit :=
  fun w => (Ok tt, {| rng := rng w; logged := logged w ++ [(l, msg)];
                      heap := heap w |}).

(** [k] successive draws. *)
Fixpoint gauss (k : nat) (g : bitgen) : list float * bitgen :=
  match k with
  | O => ([], g)
  | S k' =>
      let '(z, g1) := legacy_gauss g in
      let '(zs, g2) := gauss k' g1 in
      (z :: zs, g2)
  end.

(** [np.random.normal(loc, scale, size)]: the scale is refused when its
    sign bit is set, NaN apart; the array of [size] values is allocated,
    which needs a size that is not negative and fits a C integer; each
    value is [loc + scale * z] for a fresh standard-normal draw [z]. *)
Definition normal (loc scale : float) (size : Z) : M (list float) :=
  if negb (F64.is_nan scale) && F64.signbit scale then
    raise (Exn ValueError "scale < 0")
  else if size <? 0 then
    raise (Exn ValueError "negative dimensions are not allowed")
  else if Numpy.NPY_MAX_INTP <? size then
    raise (Exn ValueError "Maximum allowed dimension exceeded")
  else
    allocate size ;;;
    fun w =>
      let '(zs, g) := gauss (Z.to_nat size) (rng w) in
      (Ok (List.map (fun z => F64.add loc (F64.mul scale z)) zs),
       {| rng := g; logged := logged w; heap := heap w |}).

(** [pd.DataFrame({c: values})] as an object. *)
Definition pd_DataFrame (c : string) (values : list float) : M ref :=
  allocate (Z.of_nat (List.length values)) ;;;
  new (PyFrame (DataFrame_of c values)).

(** [pd.concat([a, b], ignore_index=True)] on objects: both arguments are
    read, neither is written, the result is a new object. *)
Definition pd_concat (a b : ref) : M ref :=
  x <- deref a ;;
  y <- deref b ;;
  match x, y with
  | PyFrame x, PyFrame y =>
      r <- lift (concat x y) ;;
      allocate (concat_cells x y) ;;;
      new (PyFrame r)
  | _, _ =>
      raise (Exn TypeError
               "cannot concatenate object of this type; only Series and DataFrame objs are valid")
  end.

(** The body of the [try] of [inject_outliers].  The parameter [df] is a
    reference, [d] is the frame it points to; the assignment of line 60
    rebinds the local name [df] to the object [pd.concat] returns. *)
Definition inject_outliers_try (df : ref) (column_name : string)
    (num_outliers : Z) (std_multiplier : float) : M ref :=
  o <- deref df ;;
  match o with
  | PyOther => raise (Exn TypeError "Input must be a Pandas DataFrame.")
  | PyFrame d =>
      if negb (contains column_name d) then
        raise (Exn ValueError
                 ("Column '" ++ column_name ++ "' not found in DataFrame."))
      else
        x <- lift (getitem d column_name) ;;
        if negb (is_numeric_dtype x) then
          raise (Exn TypeError
                   ("Column '" ++ column_name ++ "' must be numeric."))
        else if num_outliers <? 0 then
          raise (Exn ValueError "Number of outliers must be non-negative.")
        else if F64.leb std_multiplier F64.zero then
          raise (Exn ValueError
                   "Standard deviation multiplier must be positive.")
        else
          x <- lift (getitem d column_name) ;;
          mean <- lift (mean x) ;;
          x <- lift (getitem d column_name) ;;
          std <- lift (std x) ;;
          outliers <- normal mean (F64.mul std std_multiplier) num_outliers ;;
          t <- pd_DataFrame column_name outliers ;;
          df <- pd_concat df t ;;
          logging INFO ("Successfully injected " ++ str_of_int num_outliers
                        ++ " outliers into column '" ++ column_name ++ "'.") ;;;
          ret df
  end.

(** [inject_outliers]: the [try] with its two handlers.  The value
    returned is a reference to a frame, or Python's [None]. *)
Definition inject_outliers (df : ref) (column_name : string)
    (num_outliers : Z) (std_multiplier : float)
  : world -> option ref * world :=
  fun w =>
    match inject_outliers_try df column_name num_outliers std_multiplier w with
    | (Ok df, w') => (Some df, w')
    | (Raise e, w') =>
        if is_TypeError_or_ValueError e then
          (None, snd (logging ERROR ("Error injecting outliers: " ++ exn_msg e) w'))
        else
          (None, snd (logging ERROR ("An unexpected error occurred: " ++ exn_msg e) w'))
    end.

(** *** The command line *)

(** Python's [int] and [float] on a string: [None] for a [ValueError]. *)
Variable py_int : string -> option Z.
Variable py_float : string -> option float.

(** What argparse makes of a command line that has an argument starting
    with a dash, other than a leading [-h] or [--help]: negative numbers,
    abbreviations, [--], unknown options. *)
Variable argparse_dashed : list string -> parsed.

(** [_get_value]: the [type=] conversion of one argument. *)
Definition get_value (t : argtype) (s : string) : option value :=
  match t with
  | AsIs => Some (VStr s)
  | AsInt => option_map VInt (py_int s)
  | AsFloat => option_map VFloat (py_float s)
  end.

(** The positional arguments taken in order, each converted as it is
    taken; all of them are required and nothing may be left over. *)
Fixpoint get_values (positionals : list (string * argtype))
    (argv : list string) : option (list value) :=
  match positionals, argv with
  | [], [] => Some []
  | (_, t) :: positionals', s :: argv' =>
      match get_value t s with
      | Some v => option_map (cons v) (get_values positionals' argv')
      | None => None
      end
  | _, _ => None
  end.

(** The namespace of the five arguments. *)
Definition namespace (vs : list value) : parsed :=
  match vs with
  | [VStr i; VStr o; VStr c; VInt n; VFloat m] => Namespace (Args i o c n m)
  | _ => SystemExit 2
  end.

(** [parser.parse_args()] on [sys.argv[1:]].  A leading [-h] or [--help]
    prints the help and exits with 0; a command line without dashed
    argument is the five positionals, and every error exits with 2. *)
Definition parse_args (parser : list (string * argtype))
    (argv : list string) : parsed :=
  if match argv with a :: _ => is_help a | [] => false end then SystemExit 0
  else if existsb dashed argv then argparse_dashed argv
  else
    match get_values parser argv with
    | Some vs => namespace vs
    | None => SystemExit 2
    end.

(** The file system, with the loader and the writer of pandas.  The
    writer may fail, and may have changed the files when it does. *)
Variable fs : Type.
Variable read_csv : string -> fs -> result DataFrame.
Variable to_csv : DataFrame -> string -> fs -> option exn * fs.

(** The handlers of [main], tried in order; each logs one line and calls
    [sys.exit(1)]. *)
Definition main_except (a : args) (e : exn) : string :=
  match exn_cls e with
  | FileNotFoundError => "Input file '" ++ input_file a ++ "' not found."
  | EmptyDataError => "Input file '" ++ input_file a ++ "' is empty."
  | ParserError =>
      "Error parsing input file '" ++ input_file a
      ++ "'.  Ensure it is a valid CSV."
  | _ => "An unexpected error occurred: " ++ exn_msg e
  end.

(** The [try] of [main], lines 80 to 106: the exit status of the process
    (0 when [main] returns, 1 from [sys.exit(1)]), and the world and the
    files it leaves. *)
Definition main_try (a : args) (w : world) (files : fs) : Z * world * fs :=
  match read_csv (input_file a) files with
  | Raise e => (1, snd (logging ERROR (main_except a e) w), files)
  | Ok d =>
      let '(df, w) := alloc (PyFrame d) w in
      let '(df_with_outliers, w) :=
        inject_outliers df (column_name a) (num_outliers a)
                        (std_multiplier a) w in
      match df_with_outliers with
      | Some r =>
          match object_at w r with
          | PyFrame out =>
              match to_csv out (output_file a) files with
              | (None, files) =>
                  (0, snd (logging INFO
                             ("Outlier injection complete. Output saved to '"
                              ++ output_file a ++ "'.") w), files)
              | (Some e, files) =>
                  (1, snd (logging ERROR (main_except a e) w), files)
              end
          | PyOther =>
              (* no [to_csv] attribute: an AttributeError, caught last *)
              (1, snd (logging ERROR
                         (main_except a (Exn OtherException
                            "object has no attribute 'to_csv'")) w), files)
          end
      | None =>
          (1, snd (logging ERROR
                     "Outlier injection failed.  See previous error messages for details."
                     w), files)
      end
  end.

(** [main]: the parser is built, the command line [argv] is parsed, which
    may end the process, and the [try] runs on the namespace. *)
Definition main (argv : list string) (w : world) (files : fs)
  : Z * world * fs :=
  let parser := setup_argparse in
  match parse_args parser argv with
  | SystemExit code => (code, w, files)
  | Namespace a => main_try a w files
  end.

End Program.

Arguments rng {bitgen} w.
Arguments logged {bitgen} w.
Arguments heap {bitgen} w.
Arguments World {bitgen} rng logged heap.
Arguments object_at {bitgen} w r.
Arguments alloc {bitgen} o w.
Arguments logging {bitgen} l msg w.
Arguments gauss {bitgen} legacy_gauss k g.
Arguments normal {bitgen} legacy_gauss allocation loc scale size w.
Arguments inject_outliers_try {bitgen} legacy_gauss allocation df column_name num_outliers std_multiplier w.
Arguments inject_outliers {bitgen} legacy_gauss allocation df column_name num_outliers std_multiplier w.
Arguments main_try {bitgen} legacy_gauss allocation {fs} read_csv to_csv a w files.
Arguments main {bitgen} legacy_gauss allocation py_int py_float argparse_dashed {fs} read_csv to_csv argv w files.

(** ** A generator to run the model on

    A deterministic stand-in for the global generator: its state is a
    counter, its draws cycle through seven fixed finite values. *)

Module Cycle.

Definition table : list float :=
  List.map (fun z => F64.div (F64.of_Z z) (F64.of_Z 2)) [-3; 2; 0; -1; 3; 1; -2].

Definition bitgen : Type := nat.

Definition legacy_gauss (g : bitgen) : float * bitgen :=
  (nth (g mod 7)%nat table F64.zero, S g).

End Cycle.

(** ** Tables and a machine to run the model on *)

Module Demo.

Definition floats (zs : list Z) : list float := List.map F64.of_Z zs.

(** [x] = 1, 2, 3, 4, 5 as the loader reads them, and a text column. *)
Definition table : DataFrame :=
  {| columns := [("x"%string, Int64 [1; 2; 3; 4; 5]);
                 ("label"%string,
                  Object [Str "a"; Str "b"; Str "c"; NA; Str "e"])];
     index := RangeIndex 5 |}.

(** [x] = 5, 5, 5: standard deviation 0. *)
Definition constant : DataFrame :=
  {| columns := [("x"%string, Int64 [5; 5; 5])]; index := RangeIndex 3 |}.

(** 0.1, the double nearest to one tenth. *)
Definition tenth : float := F64.div (F64.of_Z 1) (F64.of_Z 10).

(** [x] = 0.1, 0.1, 0.1: constant, and a standard deviation that is not 0. *)
Definition tenths : DataFrame :=
  {| columns := [("x"%string, Float64 [tenth; tenth; tenth])];
     index := RangeIndex 3 |}.

(** [x] has one value and one missing entry: no standard deviation. *)
Definition single : DataFrame :=
  {| columns := [("x"%string, Float64 [F64.of_Z 7; F64.nan])];
     index := RangeIndex 2 |}.

(** A float column [x] beside an integer column [k] whose entry, 2^53 + 1,
    is no double. *)
Definition wide : DataFrame :=
  {| columns := [("x"%string, Float64 (floats [1; 2]));
                 ("k"%string, Int64 [9007199254740993; 7])];
     index := RangeIndex 2 |}.

(** A table without integer column. *)
Definition measured : DataFrame :=
  {| columns := [("x"%string, Float64 (floats [1; 2; 4]));
                 ("label"%string, Object [Str "a"; NA; Str "c"])];
     index := RangeIndex 3 |}.

Definition df : ref := 1%positive.

(** A machine that grants arrays of up to 2^20 elements. *)
Definition allocation (k : Z) : option exn :=
  if k <=? 2 ^ 20 then None
  else Some (Exn MemoryError "Unable to allocate the array").

(** A machine that grants every array. *)
Definition unbounded (k : Z) : option exn := None.

(** A world where [df] is the only object, a frame. *)
Definition world_of (d : DataFrame) : world Cycle.bitgen :=
  {| rng := 0%nat; logged := []; heap := {[ df := PyFrame d ]} |}.

(** A file system that holds tables already parsed: reading a name that
    is not there fails as a missing file does, writing always works. *)
Definition fs : Type := list (string * DataFrame).

Fixpoint read_csv (path : string) (files : fs) : result DataFrame :=
  match files with
  | [] => Raise (Exn FileNotFoundError path)
  | (p, d) :: rest => if String.eqb path p then Ok d else read_csv path rest
  end.

Definition to_csv (d : DataFrame) (path : string) (files : fs)
  : option exn * fs :=
  (None, (path, d) :: files).

Definition files : fs := [("in.csv"%string, table)].

(** 3.0 and -2.5 *)
Definition three : float := F64.of_Z 3.
Definition minus_two_and_a_half : float := F64.div (F64.of_Z (-5)) (F64.of_Z 2).

(** Stand-ins for Python's [int] and [float]: decimal integers, and a few
    float literals. *)
Definition py_int (s : string) : option Z :=
  option_map Z.of_int (NilZero.int_of_string s).

Definition py_float (s : string) : option float :=
  if String.eqb s "inf" then Some F64.inf
  else if String.eqb s "nan" then Some F64.nan
  else if String.eqb s "3.0" then Some three
  else option_map F64.of_Z (py_int s).

(** A stand-in for argparse on dashed arguments: it refuses them all. *)
Definition argparse_dashed (argv : list string) : parsed := SystemExit 2.

End Demo.

(** ** More tables and a writer that fails *)

Module MoreDemo.

(** Two columns labelled [y] beside the numeric column [x]. *)
Definition twice_y : DataFrame :=
  {| columns := [("x"%string, Float64 (Demo.floats [1; 2]));
                 ("y"%string, Float64 (Demo.floats [3; 4]));
                 ("y"%string, Float64 (Demo.floats [5; 6]))];
     index := RangeIndex 2 |}.

(** A writer that cannot create its file. *)
Definition to_csv_nowhere (d : DataFrame) (path : string) (files : Demo.fs)
  : option exn * Demo.fs :=
  (Some (Exn FileNotFoundError path), files).

Definition cli (c : string) : args :=
  Args "in.csv" "out.csv" c 2 Demo.three.

(** The command line of [cli c]. *)
Definition argv (c : string) : list string :=
  ["in.csv"; "out.csv"; c; "2"; "3.0"]%string.

Definition start : world Cycle.bitgen :=
  {| rng := 0%nat; logged := []; heap := ∅ |}.

End MoreDemo.

(** ** Notions used in the statements *)

(** The values [np.random.normal] yields in world [w] for a numeric column
    [s]: [mean + (std * std_multiplier) * z] for the next [n] draws [z]. *)
Definition drawn {bitgen} (legacy_gauss : bitgen -> float * bitgen)
    (w : world bitgen) (s : Series) (n : Z) (m : float) : list float :=
  List.map (fun z => F64.add (series_mean s)
                             (F64.mul (F64.mul (series_std s) m) z))
           (fst (gauss legacy_gauss (Z.to_nat n) (rng w))).

(** The frame [d] with the values [vs] put under column [c], and missing
    values under the other columns. *)
Definition augmented (d : DataFrame) (c : string) (vs : list float)
  : DataFrame :=
  {| columns :=
       List.map (fun p => (fst p,
                           continued (snd p)
                             (if String.eqb (fst p) c then Some (Float64 vs) else None)
                             (List.length vs)))
                (columns d);
     index := RangeIndex (nrows d + List.length vs) |}.

(** The float64 entries of a numeric column. *)
Definition floats_of (s : Series) : list float :=
  match promoted s with
  | Float64 xs => xs
  | _ => []
  end.

(** The frame [d] with its int64 columns converted to float64. *)
Definition promoted_frame (d : DataFrame) : DataFrame :=
  {| columns := List.map (fun p => (fst p, promoted (snd p))) (columns d);
     index := index d |}.

(** The arrays a call with count [n] on the frame [d] asks for are
    granted: the [n] drawn values, which must fit a C integer, and the
    cells of the concatenated frame. *)
Definition granted (allocation : Z -> option exn) (d : DataFrame) (n : Z)
  : Prop :=
  n <= Numpy.NPY_MAX_INTP
  /\ allocation n = None
  /\ allocation ((Z.of_nat (nrows d) + n) * Z.of_nat (List.length (columns d)))
     = None.

(** The number of non-missing values of a column. *)
Definition non_missing_count (s : Series) : nat :=
  match s with
  | Float64 xs => List.length (List.filter (fun x => negb (F64.is_nan x)) xs)
  | _ => size s
  end.

(** The line a handler of [inject_outliers] logs for the exception [e]. *)
Definition failure_line (e : exn) : level * string :=
  (ERROR,
   ((if is_TypeError_or_ValueError e
     then "Error injecting outliers: "
     else "An unexpected error occurred: ") ++ exn_msg e)%string).

(** The world [w] after a failure that made no draw and no object. *)
Definition after_failure {bitgen} (w : world bitgen) (e : exn)
  : world bitgen :=
  {| rng := rng w; logged := logged w ++ [failure_line e]; heap := heap w |}.

(** The message of the success log line. *)
Definition success_message (c : string) (n : Z) : string :=
  "Successfully injected " ++ str_of_int n ++ " outliers into column '" ++ c ++ "'.".

(** The call fails with the exception [e]: the body of the [try] raises
    [e], and the call returns [None] after one error-level line with the
    message of [e], leaving the generator and the objects as they were. *)
Definition fails_with {bitgen} (legacy_gauss : bitgen -> float * bitgen)
    (allocation : Z -> option exn)
    (df : ref) (c : string) (n : Z) (m : float) (w : world bitgen) (e : exn)
  : Prop :=
  fst (inject_outliers_try legacy_gauss allocation df c n m w) = Raise e
  /\ inject_outliers legacy_gauss allocation df c n m w
     = (None,
        {| rng := rng w;
           logged := logged w
                     ++ [(ERROR, ("Error injecting outliers: " ++ exn_msg e)%string)];
           heap := heap w |}).

(** What the caller receives tells two failures of different kinds apart. *)
Definition distinguishes_kinds {bitgen}
    (legacy_gauss : bitgen -> float * bitgen) (allocation : Z -> option exn)
  : Prop :=
  forall w df c n m df' c' n' m' e e',
    fst (inject_outliers_try legacy_gauss allocation df c n m w) = Raise e ->
    fst (inject_outliers_try legacy_gauss allocation df' c' n' m' w) = Raise e' ->
    e <> e' ->
    fst (inject_outliers legacy_gauss allocation df c n m w)
    <> fst (inject_outliers legacy_gauss allocation df' c' n' m' w).

(** ** The vocabulary of the specification

    Definitions written from the specification's words, to be compared
    with what the program computes. *)

Module Spec.

(** The checks of the injector, in the order of the specification. *)
Inductive check :=
| IsTable
| ColumnExists
| ColumnNumeric
| CountNonNegative
| MultiplierPositive.

Definition validation_order : list check :=
  [IsTable; ColumnExists; ColumnNumeric; CountNonNegative; MultiplierPositive].

(** Whether an injection request passes a check. *)
Definition passes (o : pyobj) (c : string) (n : Z) (m : float) (k : check)
  : bool :=
  match k with
  | IsTable => match o with PyFrame _ => true | PyOther => false end
  | ColumnExists =>
      match o with PyFrame d => contains c d | PyOther => false end
  | ColumnNumeric =>
      match o with
      | PyFrame d =>
          match getitem d c with
          | Ok x => is_numeric_dtype x
          | Raise _ => false
          end
      | PyOther => false
      end
  | CountNonNegative => 0 <=? n
  | MultiplierPositive => negb (F64.leb m F64.zero)
  end.

Definition first_failing (o : pyobj) (c : string) (n : Z) (m : float)
  : option check :=
  List.find (fun k => negb (passes o c n m k)) validation_order.

(** The error kinds of the taxonomy, as the exception the program raises
    for each: its class and its message. *)
Definition NotATable : exn :=
  Exn TypeError "Input must be a Pandas DataFrame.".
Definition ColumnNotFound (c : string) : exn :=
  Exn ValueError ("Column '" ++ c ++ "' not found in DataFrame.").
Definition NonNumericColumn (c : string) : exn :=
  Exn TypeError ("Column '" ++ c ++ "' must be numeric.").
Definition InvalidCount : exn :=
  Exn ValueError "Number of outliers must be non-negative.".
Definition InvalidMultiplier : exn :=
  Exn ValueError "Standard deviation multiplier must be positive.".

Definition reported (c : string) (k : check) : exn :=
  match k with
  | IsTable => NotATable
  | ColumnExists => ColumnNotFound c
  | ColumnNumeric => NonNumericColumn c
  | CountNonNegative => InvalidCount
  | MultiplierPositive => InvalidMultiplier
  end.

End Spec.

(** * Properties *)

(** ** Facts of binary64 arithmetic *)

Module F64Facts.
Import F64.

(** Rounding keeps the sign it is given. *)
Lemma round_aux_cases s m e l :
  let r := binary_round_aux prec emax s m e l in
  r = S754_nan \/ r = S754_zero s \/ r = S754_infinity s
  \/ exists m' e', r = S754_finite s m' e'.
Proof.
  unfold binary_round_aux.
  destruct (shr_fexp prec emax m e l) as [mrs' e'].
  destruct (shr_fexp prec emax _ e' loc_Exact) as [mrs'' e''].
  destruct (shr_m mrs'') as [|p|p]; cbn; auto.
  destruct (e'' <=? emax - prec); eauto 6.
Qed.

Lemma signbit_round_aux m e l :
  signbit (binary_round_aux prec emax false m e l) = false.
Proof.
  destruct (round_aux_cases false m e l) as [H|[H|[H|(m' & e' & H)]]];
    rewrite H; reflexivity.
Qed.

Lemma signbit_round m e : signbit (binary_round prec emax false m e) = false.
Proof.
  unfold binary_round.
  destruct (shl_align _ _ _) as [mz ez]. apply signbit_round_aux.
Qed.

Lemma signbit_of_Z z : 0 <= z -> signbit (of_Z z) = false.
Proof.
  intros Hz. unfold of_Z, binary_normalize.
  destruct z as [|p|p]; [reflexivity|apply signbit_round|lia].
Qed.

Lemma signbit_add x y :
  signbit x = false -> signbit y = false -> signbit (add x y) = false.
Proof.
  destruct x as [sx|sx| |sx mx ex], y as [sy|sy| |sy my ey];
    intros Hx Hy; cbn in Hx, Hy; subst; cbn; try reflexivity.
  unfold binary_normalize. cbn. apply signbit_round.
Qed.

Lemma signbit_mul x y :
  signbit x = false -> signbit y = false -> signbit (mul x y) = false.
Proof.
  destruct x as [sx|sx| |sx mx ex], y as [sy|sy| |sy my ey];
    intros Hx Hy; cbn in Hx, Hy; subst; cbn; try reflexivity.
  apply signbit_round_aux.
Qed.

Lemma signbit_square x : signbit (mul x x) = false.
Proof.
  destruct x as [s|s| |s m e]; cbn; rewrite ?xorb_nilpotent; try reflexivity.
  apply signbit_round_aux.
Qed.

Lemma signbit_div x y :
  signbit x = false -> signbit y = false -> signbit (div x y) = false.
Proof.
  destruct x as [sx|sx| |sx mx ex], y as [sy|sy| |sy my ey];
    intros Hx Hy; cbn in Hx, Hy; subst; cbn; try reflexivity.
  destruct (SFdiv_core_binary _ _ _ _ _ _) as [[mz ez] lz].
  apply signbit_round_aux.
Qed.

Lemma signbit_sqrt x : signbit x = false -> signbit (sqrt x) = false.
Proof.
  destruct x as [s|s| |s m e]; intros Hx; cbn in Hx; subst; cbn;
    try reflexivity.
  destruct (SFsqrt_core_binary _ _ _ _) as [[mz ez] lz].
  apply signbit_round_aux.
Qed.

Lemma signbit_fold xs : forall acc,
  signbit acc = false -> Forall (fun x => signbit x = false) xs ->
  signbit (fold_left add xs acc) = false.
Proof.
  induction xs as [|x xs IH]; cbn; intros acc Hacc Hxs; [assumption|].
  inversion Hxs; subst. apply IH; [apply signbit_add|]; assumption.
Qed.

Lemma signbit_add_neg_zero y :
  signbit y = false -> signbit (add neg_zero y) = false.
Proof. destruct y as [[]|[]| |[] m e]; cbn; auto; discriminate. Qed.

(** A value above zero is neither NaN, nor zero, nor negative. *)
Lemma ltb_zero_inv m :
  ltb zero m = true -> leb m zero = false /\ signbit m = false /\ is_nan m = false.
Proof. destruct m as [s|[]| |[] p e]; cbn; intros H; try discriminate; auto. Qed.

(** *** Equality up to the sign of zero *)

Lemma same_refl x : same x x.
Proof. left; reflexivity. Qed.

Lemma same_sym x y : same x y -> same y x.
Proof. intros [->|[? ?]]; [left|right]; auto. Qed.

Lemma same_zero x y : is_zero x = true -> is_zero y = true -> same x y.
Proof. right; auto. Qed.

Ltac zeros :=
  repeat match goal with
    | H : is_zero ?x = true |- _ =>
        destruct x; try discriminate H; clear H
    end.

Ltac bools :=
  repeat match goal with b : bool |- _ => destruct b end.

Ltac close_same :=
  bools; cbn; first [apply same_refl | apply same_zero; reflexivity].

Lemma same_add_zero x z : is_zero z = true -> same (add x z) x.
Proof. intros Hz; zeros; destruct x; close_same. Qed.

(** Python's [==] holds between same values that are not NaN. *)
Lemma same_eqb x y : same x y -> is_nan y = false -> eqb x y = true.
Proof.
  intros [<-|[Hx Hy]] Hn; zeros; [|reflexivity].
  destruct x as [s|s| |s m e]; try discriminate Hn; bools; cbn;
    try reflexivity;
    rewrite Z.compare_refl;
    replace (Pos.compare_cont Eq m m) with Eq
      by (symmetry; apply Pos.compare_cont_refl); reflexivity.
Qed.

End F64Facts.

(** ** Facts of numpy's sum *)

Section NumpySum.
Import F64 F64Facts Numpy.

Local Abbreviation nonneg := (fun x : float => signbit x = false).

Lemma Forall_firstn {A} (P : A -> Prop) k : forall l,
  Forall P l -> Forall P (firstn k l).
Proof.
  induction k as [|k IH]; intros [|x l] H; cbn; try constructor;
    inversion H; subst; auto.
Qed.

Lemma Forall_skipn {A} (P : A -> Prop) k : forall l,
  Forall P l -> Forall P (skipn k l).
Proof.
  induction k as [|k IH]; intros [|x l] H; cbn; try assumption;
    inversion H; subst; auto.
Qed.

Lemma add_each_nonneg r : forall blk,
  Forall nonneg r -> Forall nonneg blk -> Forall nonneg (add_each r blk).
Proof.
  induction r as [|x r IH]; intros [|y blk] Hr Hb; cbn; try assumption.
  inversion Hr; inversion Hb; subst.
  constructor; [now apply signbit_add|auto].
Qed.

Lemma accumulate_nonneg k : forall r a,
  Forall nonneg r -> Forall nonneg a ->
  Forall nonneg (fst (accumulate k r a))
  /\ Forall nonneg (snd (accumulate k r a)).
Proof.
  induction k as [|k IH]; intros r a Hr Ha; cbn; [auto|].
  apply IH; [apply add_each_nonneg|];
    auto using Forall_firstn, Forall_skipn.
Qed.

Lemma combine8_nonneg r : Forall nonneg r -> signbit (combine8 r) = false.
Proof.
  intros H. unfold combine8.
  do 9 (destruct r as [|? r]; try reflexivity).
  repeat match goal with
    | H : Forall _ (_ :: _) |- _ => inversion H; clear H; subst
    end.
  repeat apply signbit_add; assumption.
Qed.

Lemma block_sum_nonneg a : Forall nonneg a -> signbit (block_sum a) = false.
Proof.
  intros H. unfold block_sum.
  destruct (accumulate_nonneg (List.length a / 8 - 1) (firstn 8 a) (skipn 8 a))
    as [Hr Hrest]; auto using Forall_firstn, Forall_skipn.
  destruct (accumulate _ _ _) as [r rest]. cbn in *.
  apply signbit_fold; [now apply combine8_nonneg|assumption].
Qed.

Lemma pairwise_sum_nonneg fuel : forall a,
  a <> [] -> Forall nonneg a -> signbit (pairwise_sum_at fuel a) = false.
Proof.
  induction fuel as [|fuel IH]; intros a Hne Ha; cbn [pairwise_sum_at];
    (destruct (List.length a <? 8)%nat eqn:H8;
     [destruct a as [|x a]; [contradiction|]; cbn; inversion Ha; subst;
      apply signbit_fold; [now apply signbit_add_neg_zero|assumption]|]);
    (destruct (List.length a <=? 128)%nat eqn:H128;
     [now apply block_sum_nonneg|]); [reflexivity|].
  apply Nat.leb_gt in H128.
  apply signbit_add; apply IH; auto using Forall_firstn, Forall_skipn.
  - intros E. apply (f_equal (@List.length float)) in E.
    rewrite List.length_firstn in E. cbn [List.length] in E.
    pose proof (Nat.mod_upper_bound (List.length a / 2) 8 ltac:(lia)).
    pose proof (Nat.div_mod_eq (List.length a) 2).
    pose proof (Nat.mod_upper_bound (List.length a) 2 ltac:(lia)).
    lia.
  - intros E. apply (f_equal (@List.length float)) in E.
    rewrite List.length_skipn in E. cbn [List.length] in E.
    pose proof (Nat.div_mod_eq (List.length a) 2).
    pose proof (Nat.mod_upper_bound (List.length a) 2 ltac:(lia)).
    lia.
Qed.

(** The sum of values without sign bit has no sign bit. *)
Lemma sum_nonneg a : Forall nonneg a -> signbit (Numpy.sum a) = false.
Proof.
  intros H. destruct a as [|x a]; [reflexivity|].
  unfold Numpy.sum. apply signbit_add_neg_zero.
  now apply pairwise_sum_nonneg.
Qed.

End NumpySum.

(** ** Facts of the pandas operations *)

Section Nanops.
Import F64 F64Facts.

Lemma putmask_map (f : float -> float) (p : float -> bool) v xs :
  putmask (List.map f xs) (List.map p xs) v
  = List.map (fun x => if p x then v else f x) xs.
Proof.
  unfold putmask. induction xs as [|x xs IH]; cbn; [reflexivity|].
  f_equal. exact IH.
Qed.

Lemma putmask_mask v xs :
  putmask xs (mask xs) v = List.map (fun x => if is_nan x then v else x) xs.
Proof.
  rewrite <- (putmask_map (fun x => x)). now rewrite List.map_id.
Qed.

Lemma get_counts_mask xs :
  get_counts (mask xs)
  = Z.of_nat (List.length (List.filter (fun x => negb (is_nan x)) xs)).
Proof.
  unfold get_counts, mask. f_equal.
  induction xs as [|x xs IH]; cbn; [reflexivity|].
  destruct (is_nan x); cbn; auto.
Qed.

Lemma div_nan x : div x nan = nan.
Proof. now destruct x. Qed.

(** The standard deviation has no sign bit, so [normal] does not refuse
    the scale. *)
Lemma signbit_nanstd ddof xs : signbit (nanstd ddof xs) = false.
Proof.
  unfold nanstd, nanvar, get_counts_nanvar.
  destruct (get_counts (mask xs) <=? ddof) eqn:Hc.
  - now rewrite div_nan.
  - apply signbit_sqrt, signbit_div; [|apply signbit_of_Z; lia].
    apply sum_nonneg. rewrite putmask_mask, List.map_map. unfold mask.
    rewrite putmask_map.
    apply Forall_forall. intros v Hv. apply in_map_iff in Hv.
    destruct Hv as (x & <- & _).
    destruct (is_nan x); [reflexivity|apply signbit_square].
Qed.

Lemma signbit_series_std s : signbit (series_std s) = false.
Proof. destruct s; cbn; auto using signbit_nanstd. Qed.

Lemma nanstd_few xs :
  (List.length (List.filter (fun x => negb (is_nan x)) xs) < 2)%nat ->
  nanstd 1 xs = nan.
Proof.
  intros H. unfold nanstd, nanvar, get_counts_nanvar.
  rewrite get_counts_mask.
  replace (_ <=? 1) with true by (symmetry; lia).
  now rewrite div_nan.
Qed.

(** Below two non-missing values there is no standard deviation. *)
Lemma series_std_few s :
  numeric s = true -> (non_missing_count s < 2)%nat -> series_std s = nan.
Proof.
  destruct s as [zs|xs|cs]; cbn; intros _ H; try reflexivity.
  - apply nanstd_few. unfold size, astype_f8 in *. cbn in H.
    rewrite List.length_map in H.
    pose proof (List.filter_length_le (fun x => negb (is_nan x))
                  (List.map of_Z zs)) as Hle.
    rewrite List.length_map in Hle. lia.
  - now apply nanstd_few.
Qed.

End Nanops.

(** ** Facts of frames *)

Section Frames.

Lemma filter_absent c (cols : list (string * Series)) :
  existsb (String.eqb c) (List.map fst cols) = false ->
  List.filter (fun p => String.eqb c (fst p)) cols = [].
Proof.
  induction cols as [|[n s] cols IH]; cbn; [reflexivity|].
  intros H. apply orb_false_iff in H as [-> H]. auto.
Qed.

Lemma column_contains c d s :
  column c (columns d) = Some s -> contains c d = true.
Proof.
  unfold contains, names. induction (columns d) as [|[n t] cols IH]; cbn;
    [discriminate|].
  destruct (String.eqb c n); [reflexivity|exact IH].
Qed.

Lemma column_absent c d :
  contains c d = false -> column c (columns d) = None.
Proof.
  unfold contains, names. induction (columns d) as [|[n t] cols IH]; cbn;
    [reflexivity|].
  destruct (String.eqb c n); [discriminate|exact IH].
Qed.

(** With unique labels, [df[c]] is the column labelled [c]. *)
Lemma getitem_unique c d s :
  is_unique (names d) = true -> column c (columns d) = Some s ->
  getitem d c = Ok (ItemSeries s).
Proof.
  unfold getitem, names. induction (columns d) as [|[n t] cols IH]; cbn;
    [discriminate|].
  intros Hu Hc. apply andb_true_iff in Hu as [Hn Hu].
  destruct (String.eqb c n) eqn:E.
  - apply String.eqb_eq in E as ->. injection Hc as ->.
    rewrite filter_absent; [reflexivity|]. now apply negb_true_iff.
  - specialize (IH Hu Hc).
    destruct (List.filter _ cols) as [|p [|q l]]; try discriminate IH.
    exact IH.
Qed.

Lemma getitem_contains d c x : getitem d c = Ok x -> contains c d = true.
Proof.
  unfold getitem, contains, names.
  induction (columns d) as [|[n s] cols IH]; cbn; [discriminate|].
  destruct (String.eqb c n); [reflexivity|exact IH].
Qed.

Lemma contains_getitem d c : contains c d = true -> exists x, getitem d c = Ok x.
Proof.
  unfold getitem, contains, names. intros H.
  assert (Hne : List.filter (fun p => String.eqb c (fst p)) (columns d) <> []).
  { induction (columns d) as [|[n s] cols IH]; cbn in *; [discriminate|].
    destruct (String.eqb c n); [discriminate|auto]. }
  destruct (List.filter _ (columns d)) as [|p [|q l]]; [easy|eauto..].
Qed.

Lemma filter_first c cols s :
  column c cols = Some s ->
  exists n rest,
    List.filter (fun p : string * Series => String.eqb c (fst p)) cols
    = (n, s) :: rest.
Proof.
  induction cols as [|[n t] cols IH]; cbn; [discriminate|].
  destruct (String.eqb c n); [intros [= ->]; eauto|exact IH].
Qed.

Lemma filter_none c cols :
  column c cols = None ->
  List.filter (fun p : string * Series => String.eqb c (fst p)) cols = [].
Proof.
  induction cols as [|[n t] cols IH]; cbn; [reflexivity|].
  destruct (String.eqb c n); [discriminate|exact IH].
Qed.

(** When [df[c]] is a column, it is the first column labelled [c]. *)
Lemma getitem_column d c s :
  getitem d c = Ok (ItemSeries s) -> column c (columns d) = Some s.
Proof.
  unfold getitem. intros H.
  destruct (column c (columns d)) as [t|] eqn:Hc.
  - destruct (filter_first _ _ _ Hc) as (n & rest & E). rewrite E in H.
    destruct rest; [|discriminate H]. now injection H as ->.
  - rewrite (filter_none _ _ Hc) in H. discriminate H.
Qed.

Lemma length_RangeIndex n : List.length (RangeIndex n) = n.
Proof. unfold RangeIndex. now rewrite List.length_map, List.length_seq. Qed.

(** The label at position [i] of [RangeIndex(n)] is [i]. *)
Lemma nth_error_RangeIndex n i :
  (i < n)%nat -> nth_error (RangeIndex n) i = Some (Z.of_nat i).
Proof.
  intros Hi. unfold RangeIndex. rewrite List.nth_error_map.
  rewrite (List.nth_error_nth' _ 0%nat) by now rewrite List.length_seq.
  now rewrite List.seq_nth.
Qed.

(** Concatenating a frame that has column [c] with [pd.DataFrame({c: vs})]. *)
Lemma concat_DataFrame_of d c vs :
  is_unique (names d) = true -> contains c d = true ->
  concat d (DataFrame_of c vs) = Ok (augmented d c vs).
Proof.
  intros Hu Hc. unfold concat, augmented. rewrite Hu. cbn.
  rewrite Hc. cbn. rewrite List.app_nil_r.
  unfold nrows at 1 2. cbn. now rewrite length_RangeIndex.
Qed.

Lemma concat_fails d c vs :
  is_unique (names d) = false ->
  concat d (DataFrame_of c vs)
  = Raise (Exn InvalidIndexError
             "Reindexing only valid with uniquely valued Index objects").
Proof. intros Hu. unfold concat. now rewrite Hu. Qed.

Lemma concat_cells_DataFrame_of d c vs n :
  contains c d = true -> 0 <= n -> List.length vs = Z.to_nat n ->
  concat_cells d (DataFrame_of c vs)
  = (Z.of_nat (nrows d) + n) * Z.of_nat (List.length (columns d)).
Proof.
  intros Hc Hn Hlen. unfold concat_cells. cbn. rewrite Hc. cbn.
  unfold nrows. cbn. rewrite length_RangeIndex, Hlen.
  f_equal; lia.
Qed.

(** Under a float column or missing values, a column keeps its entries,
    converted when it is an int64 column. *)
Lemma cells_continued s t k :
  (t = None \/ exists ys, t = Some (Float64 ys)) ->
  cells (continued s t k)
  = cells (promoted s) ++ match t with Some t => cells t | None => repeat NA k end.
Proof.
  intros [-> |[ys ->]]; destruct s as [zs|xs|cs]; cbn;
    rewrite ?List.map_app, ?List.map_repeat; reflexivity.
Qed.

Lemma size_promoted s : size (promoted s) = size s.
Proof.
  destruct s; try reflexivity.
  unfold size, promoted, astype_f8, cells. now rewrite !List.length_map.
Qed.

Lemma names_augmented d c vs : names (augmented d c vs) = names d.
Proof. unfold names, augmented. cbn. now rewrite List.map_map. Qed.

Lemma nrows_augmented d c vs :
  nrows (augmented d c vs) = (nrows d + List.length vs)%nat.
Proof. unfold nrows at 1. cbn. apply length_RangeIndex. Qed.

Lemma below c n vs :
  let t := if String.eqb n c then Some (Float64 vs) else None in
  t = None \/ exists ys, t = Some (Float64 ys).
Proof. cbn. destruct (String.eqb n c); eauto. Qed.

Lemma rectangular_augmented d c vs :
  rectangular d -> rectangular (augmented d c vs).
Proof.
  unfold rectangular. rewrite nrows_augmented. cbn. intros H.
  apply Forall_map. eapply Forall_impl; [|exact H].
  intros [n s] Hs. cbn in *. unfold size in *.
  rewrite cells_continued by apply below.
  rewrite List.length_app. fold (size (promoted s)).
  rewrite size_promoted. unfold size. rewrite Hs. f_equal.
  destruct (String.eqb n c); cbn;
    [apply List.length_map|apply List.repeat_length].
Qed.

Lemma frame_eq a b : columns a = columns b -> index a = index b -> a = b.
Proof. destruct a, b; cbn; intros; subst; reflexivity. Qed.

Lemma continued_nothing s t :
  (t = None \/ t = Some (Float64 [])) -> continued s t 0 = promoted s.
Proof.
  intros [-> | ->]; destruct s; cbn; now rewrite List.app_nil_r.
Qed.

(** Appending no value gives the columns back, int64 ones as float64. *)
Lemma columns_augmented_nil d c :
  columns (augmented d c []) = columns (promoted_frame d).
Proof.
  unfold augmented, promoted_frame. cbn.
  apply List.map_ext. intros [n s]. cbn. f_equal. apply continued_nothing.
  destruct (String.eqb n c); auto.
Qed.

(** The rows of the original come first, with the entries of int64 columns
    converted. *)
Lemma row_augmented_old d c vs i :
  rectangular d -> (i < nrows d)%nat ->
  row (augmented d c vs) i = row (promoted_frame d) i.
Proof.
  unfold row, augmented, promoted_frame, rectangular. cbn. intros Hrect Hi.
  rewrite !List.map_map. apply List.map_ext_in. intros [n s] Hin. cbn.
  f_equal. rewrite cells_continued by apply below.
  rewrite Forall_forall in Hrect. specialize (Hrect _ Hin). cbn in Hrect.
  apply List.nth_error_app1. fold (size (promoted s)).
  rewrite size_promoted. lia.
Qed.

(** The rows after them hold one appended value in column [c] and the
    missing value elsewhere. *)
Lemma row_augmented_new d c vs j :
  rectangular d -> (j < List.length vs)%nat ->
  row (augmented d c vs) (nrows d + j)
  = List.map (fun p => (fst p,
                        Some (if String.eqb (fst p) c
                              then Num (nth j vs F64.nan) else NA)))
             (columns d).
Proof.
  unfold row, augmented, rectangular. cbn. intros Hrect Hj.
  rewrite List.map_map. apply List.map_ext_in. intros [n s] Hin. cbn.
  f_equal. rewrite cells_continued by apply below.
  rewrite Forall_forall in Hrect. specialize (Hrect _ Hin). cbn in Hrect.
  rewrite <- size_promoted in Hrect. unfold size in Hrect.
  rewrite List.nth_error_app2 by lia.
  replace (nrows d + j - List.length (cells (promoted s)))%nat with j by lia.
  destruct (String.eqb n c); cbn.
  - rewrite List.nth_error_map.
    rewrite (List.nth_error_nth' vs F64.nan Hj). reflexivity.
  - now rewrite List.nth_error_repeat.
Qed.

Lemma column_augmented c d s vs :
  column c (columns d) = Some s -> numeric s = true ->
  column c (columns (augmented d c vs)) = Some (Float64 (floats_of s ++ vs)).
Proof.
  unfold augmented. cbn. induction (columns d) as [|[n t] cols IH]; cbn;
    [discriminate|].
  rewrite (String.eqb_sym n c). destruct (String.eqb c n); [|exact IH].
  intros [= ->] Hs. destruct s; try discriminate Hs; reflexivity.
Qed.

End Frames.

(** ** The injector *)

Section Injector.
Import F64 F64Facts Spec.

Context {bitgen : Type} (legacy_gauss : bitgen -> float * bitgen).
Context (allocation : Z -> option exn).

Local Abbreviation inject := (inject_outliers legacy_gauss allocation).
Local Abbreviation try_ := (inject_outliers_try legacy_gauss allocation).

Lemma length_gauss k : forall g,
  List.length (fst (gauss legacy_gauss k g)) = k.
Proof.
  induction k as [|k IH]; intros g; cbn; [reflexivity|].
  destruct (legacy_gauss g) as [z g1].
  specialize (IH g1). destruct (gauss legacy_gauss k g1) as [zs g2].
  cbn in *. now rewrite IH.
Qed.

Lemma length_drawn w s n m :
  List.length (drawn legacy_gauss w s n m) = Z.to_nat n.
Proof. unfold drawn. now rewrite List.length_map, length_gauss. Qed.

(** [m <= 0] is false for a positive [m] and for NaN. *)
Lemma leb_zero_false_inv m :
  leb m zero = false -> m = nan \/ signbit m = false.
Proof. destruct m as [s|[]| |[] p e]; cbn; auto; discriminate. Qed.

Lemma mul_nan_r x : mul x nan = nan.
Proof. now destruct x. Qed.

(** The scale the program passes to [normal] is never refused. *)
Lemma scale_accepted s m :
  leb m zero = false ->
  negb (is_nan (mul (series_std s) m)) && signbit (mul (series_std s) m)
  = false.
Proof.
  intros Hm. destruct (leb_zero_false_inv m Hm) as [-> |Hs].
  - now rewrite mul_nan_r.
  - rewrite signbit_mul; [apply andb_false_r|apply signbit_series_std|exact Hs].
Qed.

(** *** Objects *)

(** The object a call allocates last is where it says. *)
Lemma lookup_result (h : gmap ref pyobj) r o : (<[r := o]> h) !! r = Some o.
Proof. apply lookup_insert_eq. Qed.

Lemma fresh_free (h : gmap ref pyobj) : h !! fresh (dom h) = None.
Proof. apply not_elem_of_dom, is_fresh. Qed.

Lemma lookup_kept (h : gmap ref pyobj) l o b :
  h !! l = Some o -> (<[fresh (dom h) := b]> h) !! l = Some o.
Proof.
  intros H. rewrite lookup_insert_ne; [exact H|].
  intros <-. rewrite fresh_free in H. discriminate H.
Qed.

Lemma mean_numeric s : numeric s = true -> mean (ItemSeries s) = Ok (series_mean s).
Proof. now destruct s. Qed.

Lemma std_numeric s : numeric s = true -> std (ItemSeries s) = Ok (series_std s).
Proof. now destruct s. Qed.

(** What a call does once the five checks have passed: it fails in
    [normal] when the count does not fit a C integer or the array is not
    granted; otherwise it draws, and returns what the concatenation
    gives. *)
Lemma inject_outliers_after_checks w df d c s n m :
  heap w !! df = Some (PyFrame d) ->
  getitem d c = Ok (ItemSeries s) ->
  numeric s = true ->
  0 <= n ->
  leb m zero = false ->
  inject df c n m w =
    if Numpy.NPY_MAX_INTP <? n then
      (None, after_failure w (Exn ValueError "Maximum allowed dimension exceeded"))
    else
      match allocation n with
      | Some e => (None, after_failure w e)
      | None =>
          let vs := drawn legacy_gauss w s n m in
          let t := fresh (dom (heap w)) in
          let h := <[t := PyFrame (DataFrame_of c vs)]> (heap w) in
          let g := snd (gauss legacy_gauss (Z.to_nat n) (rng w)) in
          let failed e :=
            (None, {| rng := g; logged := logged w ++ [failure_line e];
                      heap := h |}) in
          match concat d (DataFrame_of c vs) with
          | Raise e => failed e
          | Ok out =>
              match allocation (concat_cells d (DataFrame_of c vs)) with
              | Some e => failed e
              | None =>
                  (Some (fresh (dom h)),
                   {| rng := g;
                      logged := logged w ++ [(INFO, success_message c n)];
                      heap := <[fresh (dom h) := PyFrame out]> h |})
              end
          end
      end.
Proof.
  intros Hdf Hget Hs Hn Hm.
  pose proof (getitem_contains _ _ _ Hget) as Hin.
  pose proof (scale_accepted s m Hm) as Hscale.
  unfold inject_outliers, inject_outliers_try, bind, deref, lift, object_at.
  rewrite Hdf, Hin. cbn [negb].
  rewrite Hget. cbn [is_numeric_dtype negb]. rewrite Hs. cbn [negb].
  replace (n <? 0) with false by (symmetry; lia).
  fold zero. rewrite Hm, (mean_numeric s Hs), (std_numeric s Hs).
  unfold normal. rewrite Hscale.
  replace (n <? 0) with false by (symmetry; lia).
  destruct (Numpy.NPY_MAX_INTP <? n); [reflexivity|].
  unfold allocate, bind, raise, ret.
  destruct (allocation n) as [e|] eqn:Hall;
    [unfold after_failure, failure_line, logging;
     destruct (is_TypeError_or_ValueError e); reflexivity|].
  pose proof (length_drawn w s n m) as Hlen. unfold drawn in *.
  destruct (gauss legacy_gauss (Z.to_nat n) (rng w)) as [zs g] eqn:Hg.
  cbn [fst snd] in *.
  unfold pd_DataFrame, pd_concat, new, alloc, allocate, bind, deref,
    object_at, lift, logging, raise, ret.
  rewrite Hlen, Z2Nat.id, Hall by assumption.
  cbn. rewrite (lookup_kept _ _ _ _ Hdf), lookup_result.
  destruct (concat d _) as [out|e]; cbn;
    [|unfold failure_line; destruct (is_TypeError_or_ValueError e);
      reflexivity].
  destruct (allocation (concat_cells d _)) as [e|]; cbn; [|reflexivity].
  unfold failure_line. destruct (is_TypeError_or_ValueError e); reflexivity.
Qed.

(** What a successful call returns and leaves behind. *)
Lemma inject_outliers_success w df d c s n m :
  heap w !! df = Some (PyFrame d) ->
  is_unique (names d) = true ->
  column c (columns d) = Some s ->
  numeric s = true ->
  0 <= n ->
  leb m zero = false ->
  granted allocation d n ->
  inject df c n m w =
    let vs := drawn legacy_gauss w s n m in
    let t := fresh (dom (heap w)) in
    let h := <[t := PyFrame (DataFrame_of c vs)]> (heap w) in
    let r := fresh (dom h) in
    (Some r,
     {| rng := snd (gauss legacy_gauss (Z.to_nat n) (rng w));
        logged := logged w ++ [(INFO, success_message c n)];
        heap := <[r := PyFrame (augmented d c vs)]> h |}).
Proof.
  intros Hdf Hu Hc Hs Hn Hm (Hmax & Hall & Hcells).
  pose proof (column_contains _ _ _ Hc) as Hin.
  rewrite (inject_outliers_after_checks w df d c s n m)
    by auto using getitem_unique.
  replace (Numpy.NPY_MAX_INTP <? n) with false by (symmetry; lia).
  rewrite Hall. cbn zeta.
  rewrite concat_DataFrame_of by assumption.
  rewrite (concat_cells_DataFrame_of d c _ n) by auto using length_drawn.
  now rewrite Hcells.
Qed.

(** A call that returns a table had its arrays granted. *)
Lemma inject_outliers_granted w df d c s n m r :
  heap w !! df = Some (PyFrame d) ->
  is_unique (names d) = true ->
  column c (columns d) = Some s ->
  numeric s = true ->
  0 <= n ->
  leb m zero = false ->
  fst (inject df c n m w) = Some r ->
  granted allocation d n.
Proof.
  intros Hdf Hu Hc Hs Hn Hm H.
  pose proof (column_contains _ _ _ Hc) as Hin.
  rewrite (inject_outliers_after_checks w df d c s n m) in H
    by auto using getitem_unique.
  destruct (Numpy.NPY_MAX_INTP <? n) eqn:Hmax; [discriminate H|].
  apply Z.ltb_ge in Hmax.
  destruct (allocation n) as [e|] eqn:Hall; [discriminate H|].
  cbn zeta in H.
  rewrite concat_DataFrame_of in H by assumption.
  rewrite (concat_cells_DataFrame_of d c _ n) in H
    by auto using length_drawn.
  destruct (allocation ((Z.of_nat (nrows d) + n) * _)) as [e|] eqn:Hcells;
    [discriminate H|].
  repeat split; assumption.
Qed.

Lemma positive_multiplier m : ltb zero m = true -> leb m zero = false.
Proof. intros H. now apply ltb_zero_inv in H. Qed.

(** C1, as the program has it.  For a valid table (one entry per row in
    every column, unique column labels), a present numeric column,
    [num_outliers >= 0] and [std_multiplier > 0], the call returns a table
    with [original_row_count + num_outliers] rows and the columns of the
    original, in the same order, when the arrays it asks for are granted;
    a count that does not fit a C integer is one numpy refuses, and the
    call returns [None]. *)
Theorem inject_row_count_and_columns w df d c s n m :
  heap w !! df = Some (PyFrame d) ->
  rectangular d ->
  is_unique (names d) = true ->
  column c (columns d) = Some s ->
  numeric s = true ->
  0 <= n ->
  ltb zero m = true ->
  (granted allocation d n ->
   exists r out,
     fst (inject df c n m w) = Some r
     /\ heap (snd (inject df c n m w)) !! r = Some (PyFrame out)
     /\ Z.of_nat (nrows out) = Z.of_nat (nrows d) + n
     /\ names out = names d
     /\ rectangular out)
  /\ (Numpy.NPY_MAX_INTP < n -> fst (inject df c n m w) = None).
Proof.
  intros Hdf Hrect Hu Hc Hs Hn Hm. apply positive_multiplier in Hm. split.
  - intros Hg.
    rewrite (inject_outliers_success w df d c s n m) by assumption.
    cbn. eexists _, _. split; [reflexivity|]. split; [apply lookup_result|].
    rewrite nrows_augmented, names_augmented, Nat2Z.inj_add, length_drawn.
    rewrite Z2Nat.id by assumption.
    auto using rectangular_augmented.
  - intros Hmax.
    rewrite (inject_outliers_after_checks w df d c s n m)
      by auto using getitem_unique.
    now replace (Numpy.NPY_MAX_INTP <? n) with true by (symmetry; lia).
Qed.

(** C4, as the program has it.  With [num_outliers = 0] and its arrays
    granted, the call returns a table with the rows and the columns of the
    input in which float64 and text columns are what they were, cell for
    cell, and every int64 column has become float64, each entry converted
    to the nearest double; the index is 0, 1, ...  It is the input itself
    when the input has no int64 column and carries that index. *)
Theorem inject_zero_converts_integers w df d c s m :
  heap w !! df = Some (PyFrame d) ->
  is_unique (names d) = true ->
  column c (columns d) = Some s ->
  numeric s = true ->
  ltb zero m = true ->
  granted allocation d 0 ->
  exists r out,
    fst (inject df c 0 m w) = Some r
    /\ heap (snd (inject df c 0 m w)) !! r = Some (PyFrame out)
    /\ columns out = columns (promoted_frame d)
    /\ (forall i, row out i = row (promoted_frame d) i)
    /\ index out = RangeIndex (nrows d)
    /\ nrows out = nrows d
    /\ (forall i, (i < nrows d)%nat ->
          nth_error (index out) i = Some (Z.of_nat i))
    /\ (Forall (fun p => promoted (snd p) = snd p) (columns d) ->
        index d = RangeIndex (nrows d) -> out = d).
Proof.
  intros Hdf Hu Hc Hs Hm Hg. apply positive_multiplier in Hm.
  rewrite (inject_outliers_success w df d c s 0 m) by (assumption || lia).
  cbn. eexists _, _. split; [reflexivity|]. split; [apply lookup_result|].
  change (drawn legacy_gauss w s 0 m) with (@nil float).
  assert (Hcols : columns (augmented d c []) = columns (promoted_frame d))
    by apply columns_augmented_nil.
  assert (Hidx : index (augmented d c []) = RangeIndex (nrows d))
    by (cbn; now rewrite Nat.add_0_r).
  repeat split; try assumption.
  - intros i. unfold row. now rewrite Hcols.
  - unfold nrows at 1. now rewrite Hidx, length_RangeIndex.
  - intros i Hi. rewrite Hidx. now apply nth_error_RangeIndex.
  - intros Hfloat Hd. apply frame_eq; [|now rewrite Hidx].
    rewrite Hcols. cbn. rewrite <- (List.map_id (columns d)) at 2.
    apply List.map_ext_in. intros [n t] Hin.
    rewrite Forall_forall in Hfloat. specialize (Hfloat _ Hin).
    cbn in *. now rewrite Hfloat.
Qed.

(** C6, as the program has it.  After a successful injection of
    [num_outliers > 0] values, the original rows come first, in order,
    with float64 and text entries unchanged and int64 entries converted to
    float64; the [num_outliers] rows after them hold one drawn value each
    in [column_name] and the missing value in every other column; the
    index of the whole table is 0, 1, ..., one position per row. *)
Theorem inject_appends_rows w df d c s n m r :
  heap w !! df = Some (PyFrame d) ->
  rectangular d ->
  is_unique (names d) = true ->
  column c (columns d) = Some s ->
  numeric s = true ->
  0 < n ->
  ltb zero m = true ->
  fst (inject df c n m w) = Some r ->
  let vs := drawn legacy_gauss w s n m in
  exists out,
    heap (snd (inject df c n m w)) !! r = Some (PyFrame out)
    /\ List.length vs = Z.to_nat n
    /\ (forall i, (i < nrows d)%nat -> row out i = row (promoted_frame d) i)
    /\ (forall j, (j < Z.to_nat n)%nat ->
          row out (nrows d + j)
          = List.map (fun p => (fst p,
                                Some (if String.eqb (fst p) c
                                      then Num (nth j vs nan) else NA)))
                     (columns d))
    /\ index out = RangeIndex (nrows d + Z.to_nat n)
    /\ nrows out = (nrows d + Z.to_nat n)%nat
    /\ (forall i, (i < nrows d + Z.to_nat n)%nat ->
          nth_error (index out) i = Some (Z.of_nat i)).
Proof.
  intros Hdf Hrect Hu Hc Hs Hn Hm Hr vs. apply positive_multiplier in Hm.
  assert (Hg : granted allocation d n)
    by (apply (inject_outliers_granted w df d c s n m r); assumption || lia).
  revert Hr.
  rewrite (inject_outliers_success w df d c s n m) by (assumption || lia).
  cbn. fold vs. intros [= <-]. eexists. split; [apply lookup_result|].
  assert (Hlen : List.length vs = Z.to_nat n) by apply length_drawn.
  repeat split.
  - exact Hlen.
  - intros i Hi. now apply row_augmented_old.
  - intros j Hj. apply row_augmented_new; [assumption|lia].
  - cbn. now rewrite Hlen.
  - rewrite nrows_augmented. now rewrite Hlen.
  - intros i Hi. cbn. rewrite Hlen. now apply nth_error_RangeIndex.
Qed.

Lemma gauss_all (P : float -> Prop) :
  (forall g, P (fst (legacy_gauss g))) ->
  forall k g, Forall P (fst (gauss legacy_gauss k g)).
Proof.
  intros HP. induction k as [|k IH]; intros g; cbn; [constructor|].
  pose proof (HP g) as Hz. destruct (legacy_gauss g) as [z g1].
  specialize (IH g1). destruct (gauss legacy_gauss k g1) as [zs g2].
  cbn in *. now constructor.
Qed.

Lemma zero_scale_draw loc sd m z :
  is_zero sd = true -> is_finite m = true -> is_finite z = true ->
  same (add loc (mul (mul sd m) z)) loc.
Proof.
  intros Hsd Hm Hz. apply same_add_zero.
  destruct sd; try discriminate Hsd.
  destruct m; try discriminate Hm; destruct z; try discriminate Hz;
    reflexivity.
Qed.

Lemma nan_scale_draw loc m z : add loc (mul (mul nan m) z) = nan.
Proof. cbn. now destruct loc. Qed.

(** C5, as the program has it.  For a valid request whose arrays are
    granted, with a finite multiplier and finite draws of the generator,
    the call succeeds in both degenerate cases and appends [num_outliers]
    values: when the standard deviation pandas computes is 0, each of them
    is the mean of the column (equal to it for Python's [==] unless the
    mean is NaN), whatever the draws; when it is NaN, as it is below two
    non-missing values, each of them is NaN. *)
Theorem degenerate_scale w df d c s n m :
  heap w !! df = Some (PyFrame d) ->
  is_unique (names d) = true ->
  column c (columns d) = Some s ->
  numeric s = true ->
  0 <= n ->
  ltb zero m = true ->
  granted allocation d n ->
  is_finite m = true ->
  (forall g, is_finite (fst (legacy_gauss g)) = true) ->
  let vs := drawn legacy_gauss w s n m in
  exists r,
    fst (inject df c n m w) = Some r
    /\ heap (snd (inject df c n m w)) !! r = Some (PyFrame (augmented d c vs))
    /\ List.length vs = Z.to_nat n
    /\ (is_zero (series_std s) = true ->
        Forall (fun v => same v (series_mean s)
                         /\ (is_nan (series_mean s) = false ->
                             eqb v (series_mean s) = true)) vs)
    /\ (is_nan (series_std s) = true -> Forall (fun v => v = nan) vs)
    /\ ((non_missing_count s < 2)%nat -> series_std s = nan).
Proof.
  intros Hdf Hu Hc Hs Hn Hm Hg Hfin Hdraw vs. apply positive_multiplier in Hm.
  rewrite (inject_outliers_success w df d c s n m) by assumption.
  cbn. fold vs. eexists. split; [reflexivity|].
  split; [apply lookup_result|].
  split; [apply length_drawn|].
  pose proof (gauss_all (fun z => is_finite z = true) Hdraw (Z.to_nat n) (rng w))
    as Hzs.
  repeat split.
  - intros Hsd. unfold vs, drawn. apply Forall_map.
    eapply Forall_impl; [|exact Hzs]. intros z Hz. cbn.
    pose proof (zero_scale_draw (series_mean s) _ m z Hsd Hfin Hz) as Hsame.
    split; [exact Hsame|]. intros Hnan. now apply same_eqb.
  - intros Hsd. unfold vs, drawn. apply Forall_map, Forall_forall.
    intros z _. cbn. destruct (series_std s); try discriminate Hsd.
    apply nan_scale_draw.
  - now apply series_std_few.
Qed.

(** *** Validation *)

Lemma try_first_failing w df c n m k :
  first_failing (object_at w df) c n m = Some k ->
  try_ df c n m w = (Raise (reported c k), w).
Proof.
  unfold first_failing, validation_order, inject_outliers_try, bind, deref,
    lift, raise.
  destruct (object_at w df) as [d|]; cbn; [|now intros [= <-]].
  destruct (contains c d) eqn:Hin; cbn; [|now intros [= <-]].
  destruct (contains_getitem d c Hin) as [x ->]. cbn.
  destruct (is_numeric_dtype x); cbn; [|now intros [= <-]].
  rewrite (Z.ltb_antisym 0 n).
  destruct (0 <=? n); cbn; [|now intros [= <-]].
  fold zero. destruct (leb m zero); cbn; [now intros [= <-]|discriminate].
Qed.

Lemma reported_is_caught c k : is_TypeError_or_ValueError (reported c k) = true.
Proof. now destruct k. Qed.

Lemma fails_with_first_failing w df c n m k :
  first_failing (object_at w df) c n m = Some k ->
  fails_with legacy_gauss allocation df c n m w (reported c k).
Proof.
  intros H. apply try_first_failing in H. unfold fails_with, inject_outliers.
  rewrite H. cbn [fst snd]. now rewrite reported_is_caught.
Qed.

Lemma append_cancel (c a b : string) : (c ++ a = c ++ b)%string -> a = b.
Proof. induction c as [|ch c IH]; cbn; [auto|]. intros [= H]. auto. Qed.

(** The messages tell the checks apart. *)
Lemma reported_message_inj c k k' :
  exn_msg (reported c k) = exn_msg (reported c k') -> k = k'.
Proof.
  destruct k, k'; intros H; try reflexivity;
    try (cbn in H; discriminate H);
    unfold reported, ColumnNotFound, NonNumericColumn, exn_msg in H;
    do 2 apply append_cancel in H; discriminate H.
Qed.

(** C2, as the program has it.  Every validation failure returns the same
    [None]; the failing check is told by the error-level log line only,
    whose message is the one of the first failing check, and no two checks
    share a message. *)
Theorem validation_failure_returns_None w df c n m k :
  first_failing (object_at w df) c n m = Some k ->
  inject df c n m w
  = (None,
     {| rng := rng w;
        logged := logged w
                  ++ [(ERROR, ("Error injecting outliers: "
                               ++ exn_msg (reported c k))%string)];
        heap := heap w |})
  /\ (forall k', exn_msg (reported c k') = exn_msg (reported c k) -> k' = k).
Proof.
  intros H. split.
  - apply (fails_with_first_failing w df c n m k H).
  - intros k'. apply reported_message_inj.
Qed.


(** C8. On a table whose column [column_name] is numeric, a negative
    [num_outliers], -1 in particular, fails with [InvalidCount]; with a
    count that is not negative, a [std_multiplier] that is [<= 0], 0 and
    -2.5 in particular, fails with [InvalidMultiplier]. *)
Theorem invalid_count_and_multiplier w df d c s n m :
  heap w !! df = Some (PyFrame d) ->
  getitem d c = Ok (ItemSeries s) ->
  numeric s = true ->
  (n < 0 -> fails_with legacy_gauss allocation df c n m w InvalidCount)
  /\ fails_with legacy_gauss allocation df c (-1) m w InvalidCount
  /\ (0 <= n -> leb m zero = true ->
      fails_with legacy_gauss allocation df c n m w InvalidMultiplier)
  /\ (0 <= n ->
      fails_with legacy_gauss allocation df c n zero w InvalidMultiplier
      /\ fails_with legacy_gauss allocation df c n Demo.minus_two_and_a_half w
                    InvalidMultiplier).
Proof.
  intros Hdf Hget Hs.
  pose proof (getitem_contains _ _ _ Hget) as Hin.
  assert (Hcount : forall n' m', n' < 0 ->
            fails_with legacy_gauss allocation df c n' m' w InvalidCount).
  { intros n' m' Hn.
    apply (fails_with_first_failing w df c n' m' CountNonNegative).
    unfold first_failing, object_at. rewrite Hdf. cbn. rewrite Hin, Hget. cbn.
    rewrite Hs. cbn.
    now replace (0 <=? n') with false by (symmetry; lia). }
  assert (Hmult : forall n' m', 0 <= n' -> leb m' zero = true ->
            fails_with legacy_gauss allocation df c n' m' w InvalidMultiplier).
  { intros n' m' Hn Hm.
    apply (fails_with_first_failing w df c n' m' MultiplierPositive).
    unfold first_failing, object_at. rewrite Hdf. cbn. rewrite Hin, Hget. cbn.
    rewrite Hs. cbn.
    replace (0 <=? n') with true by (symmetry; lia). cbn.
    fold zero. now rewrite Hm. }
  repeat split; try (apply Hcount; lia); try (apply Hmult; easy);
    intros; apply Hmult; auto.
Qed.

(** *** What a call leaves of the objects *)

Lemma normal_heap loc scale k w :
  heap (snd (normal legacy_gauss allocation loc scale k w)) = heap w.
Proof.
  unfold normal, allocate, bind, raise, ret.
  destruct (negb (is_nan scale) && signbit scale); [reflexivity|].
  destruct (k <? 0); [reflexivity|].
  destruct (Numpy.NPY_MAX_INTP <? k); [reflexivity|].
  destruct (allocation k); [reflexivity|].
  cbn. now destruct (gauss legacy_gauss (Z.to_nat k) (rng w)).
Qed.

(** The objects a call leaves: those it found, then at most the frame of
    the drawn values and the concatenated frame, each at a reference that
    was not in use. *)
Lemma try_heap w df c n m :
  let res := fst (try_ df c n m w) in
  let h' := heap (snd (try_ df c n m w)) in
  let t := fresh (dom (heap w)) in
  (h' = heap w /\ exists e, res = Raise e)
  \/ (exists b, h' = <[t := b]> (heap w) /\ exists e, res = Raise e)
  \/ (exists b out,
        let h := <[t := b]> (heap w) in
        h' = <[fresh (dom h) := PyFrame out]> h /\ res = Ok (fresh (dom h))).
Proof.
  unfold inject_outliers_try, pd_DataFrame, pd_concat, allocate, bind, deref,
    lift, raise, new, alloc, logging, ret.
  repeat match goal with
    | |- context [match normal _ _ ?loc ?scale ?k ?w0 with _ => _ end] =>
        let H := fresh "Hheap" in
        pose proof (normal_heap loc scale k w0) as H;
        destruct (normal legacy_gauss allocation loc scale k w0) as [[?|?] ?];
        cbn in H |- *; try rewrite H
    | |- context [match ?x with _ => _ end] =>
        lazymatch x with
        | context [match _ with _ => _ end] => fail
        | _ => destruct x; cbn
        end
    end;
    repeat match goal with H : heap _ = heap _ |- _ => rewrite H; clear H end;
    eauto 8.
Qed.

Lemma inject_try w df c n m :
  fst (inject df c n m w)
  = match fst (try_ df c n m w) with Ok r => Some r | Raise _ => None end
  /\ heap (snd (inject df c n m w)) = heap (snd (try_ df c n m w)).
Proof.
  unfold inject_outliers.
  destruct (try_ df c n m w) as [[r|e] w']; cbn; [auto|].
  destruct (is_TypeError_or_ValueError e); cbn; auto.
Qed.

(** A reference the call returns points to a frame. *)
Lemma inject_returns_frame w df c n m r :
  fst (inject df c n m w) = Some r ->
  exists out, heap (snd (inject df c n m w)) !! r = Some (PyFrame out).
Proof.
  destruct (inject_try w df c n m) as [-> ->].
  destruct (try_heap w df c n m) as [[_ [e ->]]|[(b & _ & e & ->)|(b & out & -> & ->)]];
    try discriminate.
  intros [= <-]. exists out. apply lookup_result.
Qed.

(** C10. Whatever the arguments, and whether the call succeeds or fails,
    every object that existed before the call is the same after it, the
    table passed in among them; the table returned is a new object. *)
Theorem inject_does_not_mutate w df c n m :
  (forall l o, heap w !! l = Some o ->
               heap (snd (inject df c n m w)) !! l = Some o)
  /\ (forall r, fst (inject df c n m w) = Some r ->
                heap w !! r = None
                /\ exists out,
                     heap (snd (inject df c n m w)) !! r = Some (PyFrame out)).
Proof.
  split.
  - intros l o Hl. destruct (inject_try w df c n m) as [_ ->].
    destruct (try_heap w df c n m) as [[-> _]|[(b & -> & _)|(b & out & -> & _)]];
      auto using lookup_kept.
  - intros r Hr. split; [|now apply inject_returns_frame].
    destruct (inject_try w df c n m) as [Hfst _]. rewrite Hfst in Hr.
    destruct (try_heap w df c n m) as [[_ [e He]]|[(b & _ & e & He)|(b & out & _ & He)]];
      rewrite He in Hr; try discriminate Hr.
    injection Hr as <-.
    destruct (heap w !! fresh (dom (<[fresh (dom (heap w)) := b]> (heap w))))
      as [o|] eqn:Ho; [|reflexivity].
    apply (lookup_kept _ _ _ b) in Ho. now rewrite fresh_free in Ho.
Qed.

End Injector.

(** ** The command line *)

Section CommandLine.

Context {bitgen : Type} (legacy_gauss : bitgen -> float * bitgen).
Context (allocation : Z -> option exn).
Context (py_int : string -> option Z) (py_float : string -> option float).
Context (argparse_dashed : list string -> parsed).
Context {fs : Type} (read_csv : string -> fs -> result DataFrame).
Context (to_csv : DataFrame -> string -> fs -> option exn * fs).

Local Abbreviation run :=
  (main legacy_gauss allocation py_int py_float argparse_dashed read_csv to_csv).
Local Abbreviation run_try := (main_try legacy_gauss allocation read_csv to_csv).
Local Abbreviation parse :=
  (parse_args py_int py_float argparse_dashed setup_argparse).

(** The call [main] makes once the table [d] is loaded. *)
Local Abbreviation injected a d w :=
  (inject_outliers legacy_gauss allocation (fst (alloc (PyFrame d) w))
     (column_name a) (num_outliers a) (std_multiplier a)
     (snd (alloc (PyFrame d) w))).

(** Once the command line is parsed, the exit status is 0 or 1. *)
Lemma main_try_status a w files :
  let code := fst (fst (run_try a w files)) in
  let files' := snd (run_try a w files) in
  (code = 0 \/ code = 1)
  /\ (code = 0 <->
      exists d r out,
        read_csv (input_file a) files = Ok d
        /\ fst (injected a d w) = Some r
        /\ heap (snd (injected a d w)) !! r = Some (PyFrame out)
        /\ fst (to_csv out (output_file a) files) = None)
  /\ ((forall d, read_csv (input_file a) files <> Ok d) -> files' = files)
  /\ (forall d, read_csv (input_file a) files = Ok d ->
                fst (injected a d w) = None -> files' = files)
  /\ (forall d r out,
        read_csv (input_file a) files = Ok d ->
        fst (injected a d w) = Some r ->
        heap (snd (injected a d w)) !! r = Some (PyFrame out) ->
        files' = snd (to_csv out (output_file a) files)).
Proof.
  unfold main_try. cbn zeta.
  destruct (read_csv (input_file a) files) as [d|e] eqn:Hread.
  2:{ cbn [fst snd]. split; [auto|]. split; [|split; [|split]].
    - split; [discriminate|]. intros (d & r & out & H & _). discriminate H.
    - reflexivity.
    - reflexivity.
    - discriminate. }
  destruct (alloc (PyFrame d) w) as [df w1] eqn:Halloc.
  pose proof (inject_returns_frame legacy_gauss allocation w1 df (column_name a)
                (num_outliers a) (std_multiplier a)) as Hframe.
  destruct (inject_outliers legacy_gauss allocation df (column_name a) (num_outliers a)
              (std_multiplier a) w1) as [[r|] w2] eqn:Hinj.
  2:{ assert (Hnone : forall d', Ok d = Ok d' -> fst (injected a d' w) = None).
      { intros d' [= <-]. rewrite Halloc. cbn [fst snd]. now rewrite Hinj. }
      cbn [fst snd]. split; [auto|]. split; [|split; [|split]].
      - split; [discriminate|].
        intros (d' & r & out & Hd & H & _). rewrite (Hnone d' Hd) in H.
        discriminate H.
      - reflexivity.
      - reflexivity.
      - intros d' r out Hd H. rewrite (Hnone d' Hd) in H. discriminate H. }
  destruct (Hframe r eq_refl) as [out Hout]. cbn [fst snd] in Hout.
  unfold object_at. rewrite Hout.
  assert (Hsame : forall d' r' out',
            Ok d = Ok d' ->
            fst (injected a d' w) = Some r' ->
            heap (snd (injected a d' w)) !! r' = Some (PyFrame out') ->
            r' = r /\ out' = out).
  { intros d' r' out' [= <-]. rewrite Halloc. cbn [fst snd]. rewrite Hinj.
    cbn [fst snd]. intros [= <-]. rewrite Hout. now intros [= <-]. }
  assert (Hsome : forall d', Ok d = Ok d' -> fst (injected a d' w) = Some r).
  { intros d' [= <-]. rewrite Halloc. cbn [fst snd]. now rewrite Hinj. }
  assert (Hlast : forall files2 o,
            to_csv out (output_file a) files = (o, files2) ->
            forall d' r' out',
              Ok d = Ok d' ->
              fst (injected a d' w) = Some r' ->
              heap (snd (injected a d' w)) !! r' = Some (PyFrame out') ->
              files2 = snd (to_csv out' (output_file a) files)).
  { intros files2 o Hw d' r' out' Hd Hr Ho.
    destruct (Hsame d' r' out' Hd Hr Ho) as [-> ->]. now rewrite Hw. }
  destruct (to_csv out (output_file a) files) as [[e|] files2] eqn:Hwrite;
    cbn [fst snd]; (split; [auto|]); (split; [|split; [|split]]);
    try (now apply (Hlast files2 _ eq_refl)).
  - split; [discriminate|].
    intros (d' & r' & out' & Hd & Hr & Ho & Hw).
    destruct (Hsame d' r' out' Hd Hr Ho) as [-> ->].
    rewrite Hwrite in Hw. discriminate Hw.
  - intros H. now destruct (H d).
  - intros d' Hd H. rewrite (Hsome d' Hd) in H. discriminate H.
  - split; [|reflexivity]. intros _. exists d, r, out.
    rewrite Halloc. cbn [fst snd]. rewrite Hinj. cbn [fst snd].
    rewrite Hout, Hwrite. auto.
  - intros H. now destruct (H d).
  - intros d' Hd H. rewrite (Hsome d' Hd) in H. discriminate H.
Qed.


Lemma parse_help x rest : is_help x = true -> parse (x :: rest) = SystemExit 0.
Proof. intros H. unfold parse_args. now rewrite H. Qed.

Lemma help_is_dashed x : is_help x = true -> dashed x = true.
Proof.
  unfold is_help. intros H. apply orb_true_iff in H.
  destruct H as [H|H]; apply String.eqb_eq in H; now subst.
Qed.

Lemma parse_undashed argv :
  existsb dashed argv = false ->
  parse argv = match get_values py_int py_float setup_argparse argv with
               | Some vs => namespace vs
               | None => SystemExit 2
               end.
Proof.
  intros H. unfold parse_args. rewrite H.
  destruct argv as [|x rest]; [reflexivity|].
  destruct (is_help x) eqn:Hx; [|reflexivity].
  apply help_is_dashed in Hx. cbn in H. now rewrite Hx in H.
Qed.

Lemma parse_five argv :
  existsb dashed argv = false ->
  parse argv
  = match argv with
    | [i; o; c; n; m] =>
        match py_int n, py_float m with
        | Some n, Some m => Namespace (Args i o c n m)
        | _, _ => SystemExit 2
        end
    | _ => SystemExit 2
    end.
Proof.
  intros H. rewrite (parse_undashed argv H).
  destruct argv as [|i [|o [|c [|n [|m [|x rest]]]]]]; try reflexivity;
    cbn; destruct (py_int n); try reflexivity;
    cbn; destruct (py_float m); reflexivity.
Qed.

(** C9, as the program has it.  The command line is parsed first, and
    the parser may end the process: with status 0 after a leading [-h] or
    [--help], with status 2 when the arguments, none of them dashed, are
    not five or the count or the multiplier is no number; nothing is
    loaded, logged or written then.  When the parser returns the
    arguments, the status is 0 or 1: it is 0 exactly when the loader
    returns a table, the injector returns a table, and the writer reports
    no failure; when the loader or the injector fails, the writer is not
    called and the files are as they were. *)
Theorem exit_status argv w files :
  let code := fst (fst (run argv w files)) in
  let files' := snd (run argv w files) in
  (forall k, parse argv = SystemExit k -> run argv w files = (k, w, files))
  /\ (forall x rest, argv = x :: rest -> is_help x = true ->
        parse argv = SystemExit 0)
  /\ (existsb dashed argv = false -> List.length argv <> 5%nat ->
        parse argv = SystemExit 2)
  /\ (forall i o c n m,
        argv = [i; o; c; n; m] -> existsb dashed argv = false ->
        py_int n = None \/ py_float m = None ->
        parse argv = SystemExit 2)
  /\ (forall a, parse argv = Namespace a ->
        (code = 0 \/ code = 1)
        /\ (code = 0 <->
            exists d r out,
              read_csv (input_file a) files = Ok d
              /\ fst (injected a d w) = Some r
              /\ heap (snd (injected a d w)) !! r = Some (PyFrame out)
              /\ fst (to_csv out (output_file a) files) = None)
        /\ ((forall d, read_csv (input_file a) files <> Ok d) -> files' = files)
        /\ (forall d, read_csv (input_file a) files = Ok d ->
                      fst (injected a d w) = None -> files' = files)
        /\ (forall d r out,
              read_csv (input_file a) files = Ok d ->
              fst (injected a d w) = Some r ->
              heap (snd (injected a d w)) !! r = Some (PyFrame out) ->
              files' = snd (to_csv out (output_file a) files))).
Proof.
  cbn zeta. split; [|split; [|split; [|split]]].
  - intros k Hk. unfold main. now rewrite Hk.
  - intros x rest -> Hx. now apply parse_help.
  - intros Hd Hlen. rewrite (parse_five argv Hd).
    destruct argv as [|i [|o [|c [|n [|m [|x rest]]]]]]; try reflexivity.
    now destruct Hlen.
  - intros i o c n m -> Hd Hbad. rewrite (parse_five _ Hd).
    destruct Hbad as [-> | ->]; [reflexivity|]. now destruct (py_int n).
  - intros a Ha. unfold main. rewrite Ha. apply main_try_status.
Qed.

End CommandLine.

(** ** More of the injector: the paths the checks leave open *)

Section Paths.
Import F64 F64Facts Spec.

Context {bitgen : Type} (legacy_gauss : bitgen -> float * bitgen).
Context (allocation : Z -> option exn).

Local Abbreviation inject := (inject_outliers legacy_gauss allocation).
Local Abbreviation try_ := (inject_outliers_try legacy_gauss allocation).

Lemma object_at_frame (w : world bitgen) df d :
  object_at w df = PyFrame d -> heap w !! df = Some (PyFrame d).
Proof.
  unfold object_at. destruct (heap w !! df) as [o|]; [|discriminate].
  now intros ->.
Qed.

Lemma numeric_item x :
  is_numeric_dtype x = true -> exists s, x = ItemSeries s /\ numeric s = true.
Proof. destruct x as [s|cols]; [eauto|discriminate]. Qed.

(** What passing the five checks means. *)
Lemma first_failing_None_inv o c n m :
  first_failing o c n m = None ->
  exists d s,
    o = PyFrame d /\ getitem d c = Ok (ItemSeries s) /\ numeric s = true
    /\ 0 <= n /\ leb m zero = false.
Proof.
  unfold first_failing, validation_order. cbn.
  destruct o as [d|]; cbn; [|discriminate].
  destruct (contains c d); cbn; [|discriminate].
  destruct (getitem d c) as [x|e] eqn:Hget; cbn; [|discriminate].
  destruct (is_numeric_dtype x) eqn:Hx; cbn; [|discriminate].
  destruct (0 <=? n) eqn:Hn; cbn; [|discriminate].
  fold zero. destruct (leb m zero); cbn; [discriminate|]. intros _.
  destruct (numeric_item x Hx) as (s & -> & Hs). exists d, s.
  apply Z.leb_le in Hn. repeat split; auto.
Qed.

Lemma first_failing_None o d c s n m :
  o = PyFrame d -> getitem d c = Ok (ItemSeries s) -> numeric s = true ->
  0 <= n -> leb m zero = false -> first_failing o c n m = None.
Proof.
  intros -> Hget Hs Hn Hm. unfold first_failing, validation_order. cbn.
  rewrite (getitem_contains _ _ _ Hget), Hget. cbn. rewrite Hs. cbn.
  replace (0 <=? n) with true by (symmetry; lia). cbn.
  fold zero. now rewrite Hm.
Qed.

(** *** Columns that are not numeric *)

(** X1. A column of dtype [object], and a label that two columns carry,
    are both refused as not numeric, whatever the count and the
    multiplier. *)
Theorem non_numeric_column_is_refused w df d c n m :
  heap w !! df = Some (PyFrame d) ->
  (exists ys, column c (columns d) = Some (Object ys))
  \/ (2 <= List.length (List.filter (fun p => String.eqb c (fst p)) (columns d)))%nat ->
  fails_with legacy_gauss allocation df c n m w (NonNumericColumn c).
Proof.
  intros Hdf Hcol.
  assert (Hget : exists x, getitem d c = Ok x /\ is_numeric_dtype x = false).
  { unfold getitem. destruct Hcol as [[ys Hc]|Hlen].
    - destruct (filter_first _ _ _ Hc) as (n0 & rest & ->).
      destruct rest; eauto.
    - destruct (List.filter _ (columns d)) as [|p [|q l]]; cbn in Hlen;
        try lia. eauto. }
  destruct Hget as (x & Hget & Hx).
  apply (fails_with_first_failing legacy_gauss allocation w df c n m ColumnNumeric).
  unfold first_failing, object_at. rewrite Hdf. cbn.
  rewrite (getitem_contains _ _ _ Hget), Hget. cbn. now rewrite Hx.
Qed.

(** *** When the call succeeds *)

(** X2. A call that returns a table has passed the five checks.  On a
    table with unique column labels, the call returns a table exactly
    when the five checks pass and the arrays it asks for are granted; the
    table has [num_outliers] more rows and the same columns.  Passing the
    checks does not need a positive multiplier: NaN passes too. *)
Theorem checks_decide_success w df c n m :
  (forall r, fst (inject df c n m w) = Some r ->
             first_failing (object_at w df) c n m = None)
  /\ (forall d,
        heap w !! df = Some (PyFrame d) ->
        is_unique (names d) = true ->
        (first_failing (object_at w df) c n m = None
         /\ granted allocation d n
         <-> exists r, fst (inject df c n m w) = Some r)
        /\ (forall r, fst (inject df c n m w) = Some r ->
              exists out,
                heap (snd (inject df c n m w)) !! r = Some (PyFrame out)
                /\ Z.of_nat (nrows out) = Z.of_nat (nrows d) + n
                /\ names out = names d)).
Proof.
  assert (Hchecks : forall r, fst (inject df c n m w) = Some r ->
                      first_failing (object_at w df) c n m = None).
  { intros r Hr.
    destruct (first_failing (object_at w df) c n m) as [k|] eqn:Hk;
      [|reflexivity].
    destruct (fails_with_first_failing legacy_gauss allocation w df c n m k Hk)
      as [_ H].
    rewrite H in Hr. discriminate Hr. }
  split; [exact Hchecks|].
  intros d Hdf Hu.
  assert (Hvalid : first_failing (object_at w df) c n m = None ->
            exists s, column c (columns d) = Some s /\ numeric s = true
                      /\ 0 <= n /\ leb m zero = false).
  { intros Hnone.
    destruct (first_failing_None_inv _ _ _ _ Hnone)
      as (d' & s & Hobj & Hget & Hs & Hn & Hm).
    apply object_at_frame in Hobj. rewrite Hdf in Hobj.
    injection Hobj as <-. exists s. auto using getitem_column. }
  split; [split|].
  - intros [Hnone Hg]. destruct (Hvalid Hnone) as (s & Hc & Hs & Hn & Hm).
    rewrite (inject_outliers_success legacy_gauss allocation w df d c s n m)
      by assumption.
    cbn. eauto.
  - intros [r Hr]. split; [now apply (Hchecks r)|].
    destruct (Hvalid (Hchecks r Hr)) as (s & Hc & Hs & Hn & Hm).
    now apply (inject_outliers_granted legacy_gauss allocation w df d c s n m r).
  - intros r Hr.
    destruct (Hvalid (Hchecks r Hr)) as (s & Hc & Hs & Hn & Hm).
    pose proof (inject_outliers_granted legacy_gauss allocation
                  w df d c s n m r Hdf Hu Hc Hs Hn Hm Hr) as Hg.
    revert Hr.
    rewrite (inject_outliers_success legacy_gauss allocation w df d c s n m)
      by assumption.
    cbn. intros [= <-]. eexists. split; [apply lookup_result|].
    rewrite nrows_augmented, names_augmented, Nat2Z.inj_add, length_drawn.
    rewrite Z2Nat.id by assumption. auto.
Qed.

Lemma drawn_nan_scale w s n m :
  mul (series_std s) m = nan ->
  drawn legacy_gauss w s n m = repeat nan (Z.to_nat n).
Proof.
  intros Hscale. unfold drawn. rewrite Hscale.
  pose proof (length_gauss legacy_gauss (Z.to_nat n) (rng w)) as Hlen.
  revert Hlen. generalize (fst (gauss legacy_gauss (Z.to_nat n) (rng w))).
  induction (Z.to_nat n) as [|k IH]; intros [|z zs]; cbn; try discriminate;
    [reflexivity|].
  intros [= Hlen]. f_equal; [now destruct (series_mean s)|exact (IH zs Hlen)].
Qed.

(** X3. A NaN multiplier is not refused, since [NaN <= 0] is false: on a
    valid table, with its arrays granted, the call succeeds and every
    appended value is NaN. *)
Theorem nan_multiplier_is_accepted w df d c s n :
  heap w !! df = Some (PyFrame d) ->
  is_unique (names d) = true ->
  column c (columns d) = Some s ->
  numeric s = true ->
  0 <= n ->
  granted allocation d n ->
  exists r,
    fst (inject df c n nan w) = Some r
    /\ heap (snd (inject df c n nan w)) !! r
       = Some (PyFrame (augmented d c (repeat nan (Z.to_nat n)))).
Proof.
  intros Hdf Hu Hc Hs Hn Hg.
  rewrite (inject_outliers_success legacy_gauss allocation w df d c s n nan)
    by (assumption || reflexivity).
  cbn. rewrite drawn_nan_scale by apply mul_nan_r.
  eexists. split; [reflexivity|apply lookup_result].
Qed.

(** X9. An infinite multiplier passes the check.  On a column whose
    standard deviation is 0 the scale is then [0 * inf], which is NaN:
    with its arrays granted, the call succeeds and the appended values are
    NaN, not the mean. *)
Theorem infinite_multiplier_on_zero_scale w df d c s n :
  heap w !! df = Some (PyFrame d) ->
  is_unique (names d) = true ->
  column c (columns d) = Some s ->
  numeric s = true ->
  0 <= n ->
  granted allocation d n ->
  is_zero (series_std s) = true ->
  exists r,
    fst (inject df c n inf w) = Some r
    /\ heap (snd (inject df c n inf w)) !! r
       = Some (PyFrame (augmented d c (repeat nan (Z.to_nat n)))).
Proof.
  intros Hdf Hu Hc Hs Hn Hg Hz.
  rewrite (inject_outliers_success legacy_gauss allocation w df d c s n inf)
    by (assumption || reflexivity).
  cbn. rewrite drawn_nan_scale.
  - eexists. split; [reflexivity|apply lookup_result].
  - destruct (series_std s); try discriminate Hz. reflexivity.
Qed.

(** X4. Two columns with one label, elsewhere than in the target column,
    pass the checks and fail in the concatenation: when the array of the
    drawn values is granted, the call returns [None] through its last
    handler, after the generator has made the [num_outliers] draws. *)
Theorem duplicate_labels_fail_after_the_draw w df d c s n m :
  heap w !! df = Some (PyFrame d) ->
  getitem d c = Ok (ItemSeries s) ->
  numeric s = true ->
  is_unique (names d) = false ->
  0 <= n ->
  leb m zero = false ->
  n <= Numpy.NPY_MAX_INTP ->
  allocation n = None ->
  fst (inject df c n m w) = None
  /\ rng (snd (inject df c n m w))
     = snd (gauss legacy_gauss (Z.to_nat n) (rng w))
  /\ logged (snd (inject df c n m w))
     = logged w
       ++ [(ERROR, "An unexpected error occurred: Reindexing only valid with uniquely valued Index objects"%string)].
Proof.
  intros Hdf Hget Hs Hu Hn Hm Hmax Hall.
  rewrite (inject_outliers_after_checks legacy_gauss allocation w df d c s n m)
    by assumption.
  replace (Numpy.NPY_MAX_INTP <? n) with false by (symmetry; lia).
  rewrite Hall. cbn zeta. rewrite concat_fails by assumption. cbn. auto.
Qed.

(** *** Injecting again *)

Lemma gauss_add a : forall b g,
  snd (gauss legacy_gauss (a + b) g)
  = snd (gauss legacy_gauss b (snd (gauss legacy_gauss a g))).
Proof.
  induction a as [|a IH]; intros b g; cbn; [reflexivity|].
  destruct (legacy_gauss g) as [z g1]. specialize (IH b g1).
  destruct (gauss legacy_gauss (a + b) g1) as [zs g2].
  destruct (gauss legacy_gauss a g1) as [zs' g3]. cbn in *.
  rewrite IH. now destruct (gauss legacy_gauss b g3).
Qed.

(** X5. The table a successful call returns is a valid argument again:
    when the arrays of both calls are granted, a second call on it
    succeeds, the rows add up, the columns stay, the two calls consume
    [n1 + n2] consecutive draws, and the first table is still what it
    was. *)
Theorem inject_twice w df d c s n1 m1 n2 m2 :
  heap w !! df = Some (PyFrame d) ->
  rectangular d ->
  is_unique (names d) = true ->
  column c (columns d) = Some s ->
  numeric s = true ->
  0 <= n1 -> ltb zero m1 = true ->
  0 <= n2 -> ltb zero m2 = true ->
  granted allocation d n1 ->
  granted allocation (augmented d c (drawn legacy_gauss w s n1 m1)) n2 ->
  exists r1 r2 out,
    fst (inject df c n1 m1 w) = Some r1
    /\ fst (inject r1 c n2 m2 (snd (inject df c n1 m1 w))) = Some r2
    /\ heap (snd (inject r1 c n2 m2 (snd (inject df c n1 m1 w)))) !! r2
       = Some (PyFrame out)
    /\ Z.of_nat (nrows out) = Z.of_nat (nrows d) + n1 + n2
    /\ names out = names d
    /\ rectangular out
    /\ rng (snd (inject r1 c n2 m2 (snd (inject df c n1 m1 w))))
       = snd (gauss legacy_gauss (Z.to_nat (n1 + n2)) (rng w))
    /\ heap (snd (inject r1 c n2 m2 (snd (inject df c n1 m1 w)))) !! df
       = Some (PyFrame d).
Proof.
  intros Hdf Hrect Hu Hc Hs Hn1 Hm1 Hn2 Hm2 Hg1 Hg2.
  apply positive_multiplier in Hm1, Hm2.
  rewrite (inject_outliers_success legacy_gauss allocation w df d c s n1 m1)
    by assumption.
  cbn zeta. cbn [fst snd].
  set (vs1 := drawn legacy_gauss w s n1 m1) in *.
  set (h1 := <[fresh (dom (heap w)) := PyFrame (DataFrame_of c vs1)]> (heap w)).
  set (r1 := fresh (dom h1)).
  set (w1 := {| rng := snd (gauss legacy_gauss (Z.to_nat n1) (rng w));
                logged := logged w ++ [(INFO, success_message c n1)];
                heap := <[r1 := PyFrame (augmented d c vs1)]> h1 |}).
  assert (Hr1 : heap w1 !! r1 = Some (PyFrame (augmented d c vs1)))
    by apply lookup_result.
  exists r1. fold w1.
  rewrite (inject_outliers_success legacy_gauss allocation w1 r1
             (augmented d c vs1) c (Float64 (floats_of s ++ vs1)) n2 m2);
    [|assumption|now rewrite names_augmented|now apply column_augmented
     |reflexivity|assumption|assumption|assumption].
  cbn zeta. cbn [fst snd rng heap].
  eexists _, _. split; [reflexivity|]. split; [reflexivity|].
  split; [apply lookup_result|].
  rewrite !nrows_augmented, !names_augmented, !Nat2Z.inj_add.
  rewrite length_drawn.
  unfold vs1. rewrite length_drawn. rewrite !Z2Nat.id by assumption.
  repeat split.
  - now do 2 apply rectangular_augmented.
  - cbn [w1 rng]. rewrite Z2Nat.inj_add by assumption. now rewrite gauss_add.
  - do 2 apply lookup_kept. cbn [w1 heap]. unfold r1, h1.
    now do 2 apply lookup_kept.
Qed.

End Paths.

(** ** More of the command line: what each path logs and writes *)

Section CommandLinePaths.
Import F64 F64Facts Spec.

Context {bitgen : Type} (legacy_gauss : bitgen -> float * bitgen).
Context (allocation : Z -> option exn).
Context (py_int : string -> option Z) (py_float : string -> option float).
Context (argparse_dashed : list string -> parsed).
Context {fs : Type} (read_csv : string -> fs -> result DataFrame).
Context (to_csv : DataFrame -> string -> fs -> option exn * fs).

Local Abbreviation run :=
  (main legacy_gauss allocation py_int py_float argparse_dashed read_csv to_csv).
Local Abbreviation run_try := (main_try legacy_gauss allocation read_csv to_csv).
Local Abbreviation parse :=
  (parse_args py_int py_float argparse_dashed setup_argparse).

Lemma alloc_lookup (w : world bitgen) o :
  heap (snd (alloc o w)) !! fst (alloc o w) = Some o.
Proof. apply lookup_result. Qed.

Lemma main_parsed argv a w files :
  parse argv = Namespace a -> run argv w files = run_try a w files.
Proof. intros H. unfold main. now rewrite H. Qed.

(** X6. In [main], a failure of the loader costs one error line, worded
    by the class of the exception; a failure of a check of the injector
    costs two, the injector's and [main]'s.  Either way the status is 1,
    the files are untouched and the generator has made no draw.  This is
    what [main] does on every command line parsed to these arguments. *)
Theorem failure_log_lines a w files :
  (forall e,
      read_csv (input_file a) files = Raise e ->
      run_try a w files
      = (1,
         {| rng := rng w;
            logged := logged w ++ [(ERROR, main_except a e)];
            heap := heap w |},
         files))
  /\ (forall d k,
        read_csv (input_file a) files = Ok d ->
        first_failing (PyFrame d) (column_name a) (num_outliers a)
                      (std_multiplier a) = Some k ->
        fst (fst (run_try a w files)) = 1
        /\ snd (run_try a w files) = files
        /\ rng (snd (fst (run_try a w files))) = rng w
        /\ logged (snd (fst (run_try a w files)))
           = logged w
             ++ [(ERROR, ("Error injecting outliers: "
                          ++ exn_msg (reported (column_name a) k))%string);
                 (ERROR, "Outlier injection failed.  See previous error messages for details."%string)])
  /\ (forall argv, parse argv = Namespace a ->
        run argv w files = run_try a w files).
Proof.
  split; [|split].
  - intros e He. unfold main_try. now rewrite He.
  - intros d k Hd Hk. unfold main_try. rewrite Hd.
    destruct (alloc (PyFrame d) w) as [df w1] eqn:Halloc.
    assert (Hobj : object_at w1 df = PyFrame d).
    { pose proof (alloc_lookup w (PyFrame d)) as H. rewrite Halloc in H.
      unfold object_at. cbn [fst snd] in H. now rewrite H. }
    rewrite <- Hobj in Hk.
    destruct (fails_with_first_failing legacy_gauss allocation w1 df _ _ _ k Hk)
      as [_ ->].
    unfold alloc in Halloc. injection Halloc as <- <-. cbn.
    rewrite <- List.app_assoc. auto.
  - intros argv. apply main_parsed.
Qed.

(** X7. When the writer fails, the status is 1 and the line logged is the
    one of the handler the exception falls in; a [FileNotFoundError] of
    the writer is therefore reported against the input file.  This is what
    [main] does on every command line parsed to these arguments. *)
Theorem write_failure_is_reported a w files d r out e files2 :
  read_csv (input_file a) files = Ok d ->
  let w1 := snd (alloc (PyFrame d) w) in
  let call := inject_outliers legacy_gauss allocation
                (fst (alloc (PyFrame d) w))
                (column_name a) (num_outliers a) (std_multiplier a) w1 in
  fst call = Some r ->
  heap (snd call) !! r = Some (PyFrame out) ->
  to_csv out (output_file a) files = (Some e, files2) ->
  run_try a w files
  = (1,
     {| rng := rng (snd call);
        logged := logged (snd call) ++ [(ERROR, main_except a e)];
        heap := heap (snd call) |},
     files2)
  /\ (exn_cls e = FileNotFoundError ->
      main_except a e = ("Input file '" ++ input_file a ++ "' not found.")%string)
  /\ (forall argv, parse argv = Namespace a ->
        run argv w files = run_try a w files).
Proof.
  intros Hd w1 call Hr Hout Hwrite. split; [|split].
  - unfold main_try. rewrite Hd. subst call w1.
    destruct (alloc (PyFrame d) w) as [df w1]. cbn [fst snd] in *.
    destruct (inject_outliers legacy_gauss allocation df _ _ _ w1) as [res w2].
    cbn [fst snd] in *. subst res. unfold object_at. rewrite Hout, Hwrite.
    reflexivity.
  - intros He. unfold main_except. now rewrite He.
  - intros argv. apply main_parsed.
Qed.

(** X8. From the file to the file: when the command line is parsed, the
    input loads as a table with unique labels and a numeric target column,
    the count is not negative, the multiplier is positive, the arrays are
    granted and the writer succeeds, the status is 0, the table handed to
    the writer is the loaded one with its integer columns converted and
    the drawn values appended, and two information lines are logged. *)
Theorem main_writes_the_augmented_table argv a w files d s files2 :
  parse argv = Namespace a ->
  read_csv (input_file a) files = Ok d ->
  is_unique (names d) = true ->
  column (column_name a) (columns d) = Some s ->
  numeric s = true ->
  0 <= num_outliers a ->
  ltb zero (std_multiplier a) = true ->
  granted allocation d (num_outliers a) ->
  let vs := drawn legacy_gauss w s (num_outliers a) (std_multiplier a) in
  to_csv (augmented d (column_name a) vs) (output_file a) files
  = (None, files2) ->
  fst (fst (run argv w files)) = 0
  /\ snd (run argv w files) = files2
  /\ Z.of_nat (nrows (augmented d (column_name a) vs))
     = Z.of_nat (nrows d) + num_outliers a
  /\ rng (snd (fst (run argv w files)))
     = snd (gauss legacy_gauss (Z.to_nat (num_outliers a)) (rng w))
  /\ logged (snd (fst (run argv w files)))
     = logged w
       ++ [(INFO, success_message (column_name a) (num_outliers a));
           (INFO, ("Outlier injection complete. Output saved to '"
                   ++ output_file a ++ "'.")%string)].
Proof.
  intros Hparse Hd Hu Hc Hs Hn Hm Hg vs Hwrite.
  apply positive_multiplier in Hm.
  rewrite (main_parsed argv a w files Hparse). unfold main_try. rewrite Hd.
  destruct (alloc (PyFrame d) w) as [df w1] eqn:Halloc.
  assert (Hdf : heap w1 !! df = Some (PyFrame d)).
  { pose proof (alloc_lookup w (PyFrame d)) as H. now rewrite Halloc in H. }
  assert (Hrng : rng w1 = rng w /\ logged w1 = logged w).
  { unfold alloc in Halloc. now injection Halloc as <- <-. }
  destruct Hrng as [Hrng Hlog].
  rewrite (inject_outliers_success legacy_gauss allocation w1 df d
             (column_name a) s (num_outliers a) (std_multiplier a))
    by assumption.
  cbn zeta. unfold object_at. cbn [heap]. rewrite lookup_result.
  assert (Hvs : drawn legacy_gauss w1 s (num_outliers a) (std_multiplier a) = vs).
  { unfold vs, drawn. now rewrite Hrng. }
  rewrite Hvs, Hwrite.
  split; [reflexivity|]. split; [reflexivity|]. split.
  - rewrite nrows_augmented, Nat2Z.inj_add. f_equal.
    unfold vs. rewrite length_drawn. now apply Z2Nat.id.
  - cbn. now rewrite Hrng, Hlog, <- List.app_assoc.
Qed.

End CommandLinePaths.

(** ** The model at work *)

Section Runs.
Import F64 F64Facts Spec.

Local Abbreviation inject := (inject_outliers Cycle.legacy_gauss Demo.allocation).
Local Abbreviation x12345 := (Int64 [1; 2; 3; 4; 5]).
Local Abbreviation x555 := (Int64 [5; 5; 5]).
Local Abbreviation tenths := (Float64 [Demo.tenth; Demo.tenth; Demo.tenth]).
Local Abbreviation run :=
  (main Cycle.legacy_gauss Demo.allocation Demo.py_int Demo.py_float
        Demo.argparse_dashed Demo.read_csv Demo.to_csv).

Local Ltac grant := repeat split; vm_compute; (reflexivity || discriminate).

Lemma Cycle_draws_finite g : is_finite (fst (Cycle.legacy_gauss g)) = true.
Proof.
  unfold Cycle.legacy_gauss. cbn [fst].
  pose proof (Nat.mod_upper_bound g 7 ltac:(lia)) as H.
  destruct (g mod 7)%nat as [|[|[|[|[|[|[|k]]]]]]]; try reflexivity. lia.
Qed.

Lemma rectangular_table : rectangular Demo.table.
Proof. repeat constructor. Qed.

(** The first scenario of the specification: mean 3, and seven rows after
    two values are injected. *)
Example mean_of_x12345 : series_mean x12345 = of_Z 3.
Proof. vm_compute. reflexivity. Qed.

Example seven_rows :
  let r := inject Demo.df "x" 2 Demo.three (Demo.world_of Demo.table) in
  fst r = Some 3%positive
  /\ (exists out,
        heap (snd r) !! 3%positive = Some (PyFrame out)
        /\ nrows out = 7%nat
        /\ List.nth_error (row out 0) 0
           = Some ("x"%string, Some (Num (of_Z 1)))
        /\ List.nth_error (row out 6) 1 = Some ("label"%string, Some NA)).
Proof.
  split; [vm_compute; reflexivity|].
  exists (augmented Demo.table "x"
            (drawn Cycle.legacy_gauss (Demo.world_of Demo.table) x12345 2
                   Demo.three)).
  vm_compute. repeat split; reflexivity.
Qed.

(** The second scenario: 5, 5, 5 and three values injected, all 5. *)
Example constant_column :
  drawn Cycle.legacy_gauss (Demo.world_of Demo.constant) x555 3 (of_Z 2)
  = Demo.floats [5; 5; 5].
Proof. vm_compute. reflexivity. Qed.

(** Sums are blocked from eight entries on: eight tenths have the mean
    0.1 and the standard deviation 0, three tenths have neither. *)
Example eight_tenths :
  series_mean (Float64 (repeat Demo.tenth 8)) = Demo.tenth
  /\ series_std (Float64 (repeat Demo.tenth 8)) = zero.
Proof. vm_compute. split; reflexivity. Qed.

Example three_tenths :
  eqb (series_mean tenths) Demo.tenth = false
  /\ ltb zero (series_std tenths) = true.
Proof. vm_compute. split; reflexivity. Qed.

(** A run of the command line on a file that is not there. *)
Example main_missing_file :
  run ["nowhere.csv"; "out.csv"; "x"; "2"; "3.0"]%string (World 0%nat [] ∅)
      Demo.files
  = (1, World 0%nat [(ERROR, "Input file 'nowhere.csv' not found."%string)] ∅,
     Demo.files).
Proof. vm_compute. reflexivity. Qed.

(** *** C1 *)

(** C1, as the specification has it, fails: on a valid table, with a
    count that is not negative and a positive multiplier, a count of 2^63
    is refused by numpy on a machine that grants every array, and the call
    returns [None]. *)
Lemma count_beyond_C_integer_returns_None :
  rectangular Demo.table
  /\ is_unique (names Demo.table) = true
  /\ column "x" (columns Demo.table) = Some x12345
  /\ numeric x12345 = true
  /\ 0 <= 2 ^ 63
  /\ ltb zero Demo.three = true
  /\ inject_outliers Cycle.legacy_gauss Demo.unbounded Demo.df "x" (2 ^ 63)
       Demo.three (Demo.world_of Demo.table)
     = (None,
        {| rng := 0%nat;
           logged := [(ERROR, "Error injecting outliers: Maximum allowed dimension exceeded"%string)];
           heap := heap (Demo.world_of Demo.table) |}).
Proof.
  split; [apply rectangular_table|].
  repeat split; try reflexivity. vm_compute. discriminate.
Qed.

Lemma inject_row_count_and_columns_witness :
  (exists r out,
      fst (inject Demo.df "x" 2 Demo.three (Demo.world_of Demo.table)) = Some r
      /\ heap (snd (inject Demo.df "x" 2 Demo.three (Demo.world_of Demo.table))) !! r
         = Some (PyFrame out)
      /\ Z.of_nat (nrows out) = Z.of_nat (nrows Demo.table) + 2
      /\ names out = names Demo.table
      /\ rectangular out)
  /\ fst (inject Demo.df "x" (2 ^ 63) Demo.three (Demo.world_of Demo.table))
     = None.
Proof.
  split.
  - apply (proj1 (inject_row_count_and_columns Cycle.legacy_gauss
                    Demo.allocation (Demo.world_of Demo.table) Demo.df
                    Demo.table "x" x12345 2 Demo.three
                    eq_refl rectangular_table eq_refl eq_refl eq_refl
                    ltac:(lia) eq_refl)).
    grant.
  - apply (proj2 (inject_row_count_and_columns Cycle.legacy_gauss
                    Demo.allocation (Demo.world_of Demo.table) Demo.df
                    Demo.table "x" x12345 (2 ^ 63) Demo.three
                    eq_refl rectangular_table eq_refl eq_refl eq_refl
                    ltac:(lia) eq_refl)).
    vm_compute. reflexivity.
Defined.

(** *** C4 *)

(** C4, as the specification has it, fails: with [num_outliers = 0] the
    table returned has the integer column [k] as float64, and its first
    entry, 2^53 + 1, has become 2^53. *)
Lemma zero_injection_converts_integers :
  let call := inject Demo.df "x" 0 Demo.three (Demo.world_of Demo.wide) in
  exists out,
    fst call = Some 3%positive
    /\ heap (snd call) !! 3%positive = Some (PyFrame out)
    /\ row Demo.wide 0
       = [("x"%string, Some (Num (of_Z 1)));
          ("k"%string, Some (CInt 9007199254740993))]
    /\ row out 0
       = [("x"%string, Some (Num (of_Z 1)));
          ("k"%string, Some (Num (of_Z 9007199254740992)))]
    /\ row out 0 <> row Demo.wide 0.
Proof.
  exists (augmented Demo.wide "x" []).
  vm_compute. repeat split; try reflexivity. discriminate.
Qed.

Lemma inject_zero_converts_integers_witness :
  let call := inject Demo.df "x" 0 Demo.three (Demo.world_of Demo.measured) in
  exists r out,
    fst call = Some r
    /\ heap (snd call) !! r = Some (PyFrame out)
    /\ out = Demo.measured.
Proof.
  destruct (inject_zero_converts_integers Cycle.legacy_gauss Demo.allocation
              (Demo.world_of Demo.measured) Demo.df Demo.measured "x"
              (Float64 (Demo.floats [1; 2; 4])) Demo.three
              eq_refl eq_refl eq_refl eq_refl eq_refl ltac:(grant))
    as (r & out & Hr & Hout & _ & _ & _ & _ & _ & Hsame).
  exists r, out. repeat split; [exact Hr|exact Hout|].
  apply Hsame; [|reflexivity]. repeat constructor.
Defined.

(** *** C5 *)

(** C5, as the specification has it, fails twice.  The column 5, 5, 5 has
    the standard deviation 0, the multiplier infinity is positive, and the
    values generated are NaN, not 5.  The column 0.1, 0.1, 0.1 is constant,
    the standard deviation pandas computes for it is not 0, and none of
    the values generated is 0.1. *)
Lemma degenerate_scale_is_not_the_mean :
  (series_std x555 = zero
   /\ ltb zero inf = true
   /\ inject Demo.df "x" 3 inf (Demo.world_of Demo.constant)
      = (Some 3%positive,
         {| rng := 3%nat;
            logged := [(INFO, "Successfully injected 3 outliers into column 'x'."%string)];
            heap := <[3%positive := PyFrame (augmented Demo.constant "x" [nan; nan; nan])]>
                      (<[2%positive := PyFrame (DataFrame_of "x" [nan; nan; nan])]>
                         (heap (Demo.world_of Demo.constant))) |}))
  /\ (is_zero (series_std tenths) = false
      /\ fst (inject Demo.df "x" 3 (of_Z 2) (Demo.world_of Demo.tenths))
         = Some 3%positive
      /\ heap (snd (inject Demo.df "x" 3 (of_Z 2) (Demo.world_of Demo.tenths)))
           !! 3%positive
         = Some (PyFrame
                   (augmented Demo.tenths "x"
                      (drawn Cycle.legacy_gauss (Demo.world_of Demo.tenths)
                             tenths 3 (of_Z 2))))
      /\ List.map (fun v => eqb v Demo.tenth)
                  (drawn Cycle.legacy_gauss (Demo.world_of Demo.tenths)
                         tenths 3 (of_Z 2))
         = [false; false; false]).
Proof. vm_compute. repeat split; reflexivity. Qed.

Lemma degenerate_scale_witness :
  let vs := drawn Cycle.legacy_gauss (Demo.world_of Demo.constant) x555 3
                  (of_Z 2) in
  Forall (fun v => same v (of_Z 5) /\ eqb v (of_Z 5) = true) vs
  /\ series_std (Float64 [of_Z 7; nan]) = nan.
Proof.
  intros vs. split.
  - destruct (degenerate_scale Cycle.legacy_gauss Demo.allocation
                (Demo.world_of Demo.constant) Demo.df Demo.constant "x" x555
                3 (of_Z 2)
                eq_refl eq_refl eq_refl eq_refl ltac:(lia) eq_refl
                ltac:(grant) eq_refl Cycle_draws_finite)
      as (r & _ & _ & _ & Hzero & _).
    specialize (Hzero eq_refl).
    eapply Forall_impl; [|exact Hzero].
    intros v [Hsame Heqb]. split; [exact Hsame|exact (Heqb eq_refl)].
  - destruct (degenerate_scale Cycle.legacy_gauss Demo.allocation
                (Demo.world_of Demo.single) Demo.df Demo.single "x"
                (Float64 [of_Z 7; nan]) 3 (of_Z 2)
                eq_refl eq_refl eq_refl eq_refl ltac:(lia) eq_refl
                ltac:(grant) eq_refl Cycle_draws_finite)
      as (r & _ & _ & _ & _ & _ & Hfew).
    apply Hfew. vm_compute. lia.
Defined.

(** *** C6 *)

(** C6, as the specification has it, fails: after one value is injected
    the first row is not the first row of the input, its integer entry
    2^53 + 1 has become the double 2^53. *)
Lemma original_rows_are_converted :
  let call := inject Demo.df "x" 1 Demo.three (Demo.world_of Demo.wide) in
  exists out,
    fst call = Some 3%positive
    /\ heap (snd call) !! 3%positive = Some (PyFrame out)
    /\ row Demo.wide 0
       = [("x"%string, Some (Num (of_Z 1)));
          ("k"%string, Some (CInt 9007199254740993))]
    /\ row out 0
       = [("x"%string, Some (Num (of_Z 1)));
          ("k"%string, Some (Num (of_Z 9007199254740992)))]
    /\ row out 0 <> row Demo.wide 0.
Proof.
  exists (augmented Demo.wide "x"
            (drawn Cycle.legacy_gauss (Demo.world_of Demo.wide)
                   (Float64 (Demo.floats [1; 2])) 1 Demo.three)).
  vm_compute. repeat split; try reflexivity. discriminate.
Qed.

Lemma inject_appends_rows_witness :
  let vs := drawn Cycle.legacy_gauss (Demo.world_of Demo.table) x12345 2
                  Demo.three in
  exists out,
    heap (snd (inject Demo.df "x" 2 Demo.three (Demo.world_of Demo.table)))
      !! 3%positive
    = Some (PyFrame out)
    /\ List.length vs = Z.to_nat 2
    /\ (forall i, (i < nrows Demo.table)%nat ->
          row out i = row (promoted_frame Demo.table) i)
    /\ (forall j, (j < Z.to_nat 2)%nat ->
          row out (nrows Demo.table + j)
          = List.map (fun p => (fst p,
                                Some (if String.eqb (fst p) "x"
                                      then Num (nth j vs nan) else NA)))
                     (columns Demo.table))
    /\ index out = RangeIndex (nrows Demo.table + Z.to_nat 2)
    /\ nrows out = (nrows Demo.table + Z.to_nat 2)%nat
    /\ (forall i, (i < nrows Demo.table + Z.to_nat 2)%nat ->
          nth_error (index out) i = Some (Z.of_nat i)).
Proof.
  apply (inject_appends_rows Cycle.legacy_gauss Demo.allocation
           (Demo.world_of Demo.table) Demo.df Demo.table "x" x12345 2
           Demo.three 3%positive);
    [reflexivity|apply rectangular_table|reflexivity|reflexivity|reflexivity
    |lia|reflexivity|vm_compute; reflexivity].
Defined.

(** *** C2, C3, C8, C10 *)

(** C2, as the specification has it, fails: a missing column and a
    negative count are different failures, and the caller receives [None]
    for both. *)
Lemma failures_return_the_same_None :
  ~ distinguishes_kinds Cycle.legacy_gauss Demo.allocation.
Proof.
  intros H.
  apply (H (Demo.world_of Demo.table)
           Demo.df "z"%string 2 Demo.three
           Demo.df "x"%string (-1) Demo.three
           (ColumnNotFound "z") InvalidCount);
    [reflexivity|reflexivity|discriminate|reflexivity].
Qed.

Lemma validation_failure_returns_None_witness :
  inject Demo.df "x" (-1) Demo.three (Demo.world_of Demo.table)
  = (None,
     {| rng := 0%nat;
        logged := [(ERROR, "Error injecting outliers: Number of outliers must be non-negative."%string)];
        heap := heap (Demo.world_of Demo.table) |}).
Proof.
  exact (proj1 (validation_failure_returns_None Cycle.legacy_gauss
                  Demo.allocation
                  (Demo.world_of Demo.table) Demo.df "x" (-1) Demo.three
                  CountNonNegative eq_refl)).
Defined.


Lemma invalid_count_and_multiplier_witness :
  fails_with Cycle.legacy_gauss Demo.allocation Demo.df "x" (-1) Demo.three
             (Demo.world_of Demo.table) InvalidCount
  /\ fails_with Cycle.legacy_gauss Demo.allocation Demo.df "x" 2 zero
                (Demo.world_of Demo.table) InvalidMultiplier
  /\ fails_with Cycle.legacy_gauss Demo.allocation Demo.df "x" 2
                Demo.minus_two_and_a_half
                (Demo.world_of Demo.table) InvalidMultiplier.
Proof.
  destruct (invalid_count_and_multiplier Cycle.legacy_gauss Demo.allocation
              (Demo.world_of Demo.table) Demo.df Demo.table "x" x12345 2
              Demo.three eq_refl eq_refl eq_refl)
    as (_ & Hcount & _ & Hmult).
  split; [exact Hcount|exact (Hmult ltac:(lia))].
Defined.

Lemma inject_does_not_mutate_witness :
  heap (snd (inject Demo.df "x" 2 Demo.three (Demo.world_of Demo.table)))
    !! Demo.df
  = Some (PyFrame Demo.table).
Proof.
  exact (proj1 (inject_does_not_mutate Cycle.legacy_gauss Demo.allocation
                  (Demo.world_of Demo.table) Demo.df "x" 2 Demo.three)
               Demo.df (PyFrame Demo.table) eq_refl).
Defined.

(** *** C9 *)

(** C9, as the specification has it, fails: after [-h] the status is 0
    and nothing was loaded, injected or written; with a count that is no
    number the status is 2, which is neither 0 nor 1. *)
Lemma parser_exits_with_0_and_2 :
  let w := World 0%nat [] ∅ in
  run ["-h"]%string w Demo.files = (0, w, Demo.files)
  /\ parse_args Demo.py_int Demo.py_float Demo.argparse_dashed setup_argparse
       ["-h"]%string
     = SystemExit 0
  /\ run ["in.csv"; "out.csv"; "x"; "many"; "3.0"]%string w Demo.files
     = (2, w, Demo.files).
Proof. vm_compute. repeat split; reflexivity. Qed.

Lemma exit_status_witness :
  let argv := MoreDemo.argv "x" in
  let a := MoreDemo.cli "x" in
  let w := World 0%nat [] ∅ in
  exists d r out,
    Demo.read_csv (input_file a) Demo.files = Ok d
    /\ fst (inject (fst (alloc (PyFrame d) w)) (column_name a)
                   (num_outliers a) (std_multiplier a)
                   (snd (alloc (PyFrame d) w))) = Some r
    /\ heap (snd (inject (fst (alloc (PyFrame d) w)) (column_name a)
                         (num_outliers a) (std_multiplier a)
                         (snd (alloc (PyFrame d) w)))) !! r
       = Some (PyFrame out)
    /\ fst (Demo.to_csv out (output_file a) Demo.files) = None.
Proof.
  intros argv a w.
  destruct (exit_status Cycle.legacy_gauss Demo.allocation Demo.py_int
              Demo.py_float Demo.argparse_dashed Demo.read_csv Demo.to_csv
              argv w Demo.files)
    as (_ & _ & _ & _ & Hparsed).
  destruct (Hparsed a ltac:(vm_compute; reflexivity)) as (_ & Hzero & _).
  apply (proj1 Hzero). vm_compute. reflexivity.
Defined.

End Runs.


(** ** More runs *)

Section MoreRuns.
Import F64 F64Facts Spec.

Local Abbreviation inject := (inject_outliers Cycle.legacy_gauss Demo.allocation).
Local Abbreviation x12345 := (Int64 [1; 2; 3; 4; 5]).
Local Abbreviation run :=
  (main Cycle.legacy_gauss Demo.allocation Demo.py_int Demo.py_float
        Demo.argparse_dashed Demo.read_csv Demo.to_csv).

Local Ltac grant := repeat split; vm_compute; (reflexivity || discriminate).

Lemma non_numeric_column_is_refused_witness :
  fails_with Cycle.legacy_gauss Demo.allocation Demo.df "label" 2 Demo.three
             (Demo.world_of Demo.table) (NonNumericColumn "label")
  /\ fails_with Cycle.legacy_gauss Demo.allocation Demo.df "y" 2 Demo.three
                (Demo.world_of MoreDemo.twice_y) (NonNumericColumn "y").
Proof.
  split.
  - apply (non_numeric_column_is_refused Cycle.legacy_gauss Demo.allocation
             (Demo.world_of Demo.table) Demo.df Demo.table "label" 2
             Demo.three eq_refl).
    left. eexists. reflexivity.
  - apply (non_numeric_column_is_refused Cycle.legacy_gauss Demo.allocation
             (Demo.world_of MoreDemo.twice_y) Demo.df MoreDemo.twice_y "y" 2
             Demo.three eq_refl).
    right. cbn. lia.
Defined.

Lemma checks_decide_success_witness :
  exists r,
    fst (inject Demo.df "x" 2 nan (Demo.world_of Demo.table)) = Some r.
Proof.
  apply (proj1 (proj2 (checks_decide_success Cycle.legacy_gauss
                         Demo.allocation (Demo.world_of Demo.table) Demo.df
                         "x" 2 nan)
                      Demo.table eq_refl eq_refl)).
  split; [reflexivity|grant].
Defined.

Lemma nan_multiplier_is_accepted_witness :
  exists r,
    fst (inject Demo.df "x" 2 nan (Demo.world_of Demo.table)) = Some r
    /\ heap (snd (inject Demo.df "x" 2 nan (Demo.world_of Demo.table))) !! r
       = Some (PyFrame (augmented Demo.table "x" [nan; nan])).
Proof.
  apply (nan_multiplier_is_accepted Cycle.legacy_gauss Demo.allocation
           (Demo.world_of Demo.table) Demo.df Demo.table "x" x12345 2
           eq_refl eq_refl eq_refl eq_refl ltac:(lia)).
  grant.
Defined.

Lemma duplicate_labels_fail_after_the_draw_witness :
  let call := inject Demo.df "x" 2 Demo.three
                     (Demo.world_of MoreDemo.twice_y) in
  fst call = None
  /\ rng (snd call) = 2%nat
  /\ logged (snd call)
     = [(ERROR, "An unexpected error occurred: Reindexing only valid with uniquely valued Index objects"%string)].
Proof.
  apply (duplicate_labels_fail_after_the_draw Cycle.legacy_gauss
           Demo.allocation
           (Demo.world_of MoreDemo.twice_y) Demo.df MoreDemo.twice_y "x"
           (Float64 (Demo.floats [1; 2])) 2 Demo.three
           eq_refl eq_refl eq_refl eq_refl ltac:(lia) eq_refl).
  - vm_compute. discriminate.
  - reflexivity.
Defined.

Lemma inject_twice_witness :
  let first := inject Demo.df "x" 2 Demo.three (Demo.world_of Demo.table) in
  exists r1 r2 out,
    fst first = Some r1
    /\ fst (inject r1 "x" 1 (of_Z 2) (snd first)) = Some r2
    /\ heap (snd (inject r1 "x" 1 (of_Z 2) (snd first))) !! r2
       = Some (PyFrame out)
    /\ Z.of_nat (nrows out) = Z.of_nat (nrows Demo.table) + 2 + 1
    /\ names out = names Demo.table
    /\ rectangular out
    /\ rng (snd (inject r1 "x" 1 (of_Z 2) (snd first)))
       = snd (gauss Cycle.legacy_gauss (Z.to_nat (2 + 1)) 0%nat)
    /\ heap (snd (inject r1 "x" 1 (of_Z 2) (snd first))) !! Demo.df
       = Some (PyFrame Demo.table).
Proof.
  apply (inject_twice Cycle.legacy_gauss Demo.allocation
           (Demo.world_of Demo.table) Demo.df
           Demo.table "x" x12345 2 Demo.three 1 (of_Z 2)
           eq_refl rectangular_table eq_refl eq_refl eq_refl
           ltac:(lia) eq_refl ltac:(lia) eq_refl).
  - grant.
  - grant.
Defined.

Lemma failure_log_lines_witness :
  let argv := MoreDemo.argv "z" in
  fst (fst (run argv MoreDemo.start Demo.files)) = 1
  /\ snd (run argv MoreDemo.start Demo.files) = Demo.files
  /\ rng (snd (fst (run argv MoreDemo.start Demo.files))) = 0%nat
  /\ logged (snd (fst (run argv MoreDemo.start Demo.files)))
     = [(ERROR, "Error injecting outliers: Column 'z' not found in DataFrame."%string);
        (ERROR, "Outlier injection failed.  See previous error messages for details."%string)].
Proof.
  destruct (failure_log_lines Cycle.legacy_gauss Demo.allocation
              Demo.py_int Demo.py_float Demo.argparse_dashed
              Demo.read_csv Demo.to_csv
              (MoreDemo.cli "z") MoreDemo.start Demo.files)
    as (_ & Hcheck & Hmain).
  cbv zeta. rewrite (Hmain (MoreDemo.argv "z") eq_refl).
  exact (Hcheck Demo.table ColumnExists eq_refl eq_refl).
Defined.

Lemma write_failure_is_reported_witness :
  logged (snd (fst (main Cycle.legacy_gauss Demo.allocation Demo.py_int
                         Demo.py_float Demo.argparse_dashed Demo.read_csv
                         MoreDemo.to_csv_nowhere (MoreDemo.argv "x")
                         MoreDemo.start Demo.files)))
  = [(INFO, "Successfully injected 2 outliers into column 'x'."%string);
     (ERROR, "Input file 'in.csv' not found."%string)].
Proof.
  pose proof (write_failure_is_reported Cycle.legacy_gauss Demo.allocation
                Demo.py_int Demo.py_float Demo.argparse_dashed Demo.read_csv
                MoreDemo.to_csv_nowhere (MoreDemo.cli "x")
                MoreDemo.start
                Demo.files Demo.table 3%positive
                (augmented Demo.table "x"
                   (drawn Cycle.legacy_gauss MoreDemo.start x12345 2 Demo.three))
                (Exn FileNotFoundError "out.csv") Demo.files
                eq_refl) as H.
  cbv zeta in H.
  destruct (H ltac:(vm_compute; reflexivity) ltac:(vm_compute; reflexivity)
              eq_refl) as (Hrun & _ & Hmain).
  rewrite (Hmain (MoreDemo.argv "x") eq_refl), Hrun.
  vm_compute. reflexivity.
Defined.

Lemma main_writes_the_augmented_table_witness :
  let argv := MoreDemo.argv "x" in
  let vs := drawn Cycle.legacy_gauss MoreDemo.start x12345 2 Demo.three in
  fst (fst (run argv MoreDemo.start Demo.files)) = 0
  /\ snd (run argv MoreDemo.start Demo.files)
     = ("out.csv"%string, augmented Demo.table "x" vs) :: Demo.files
  /\ Z.of_nat (nrows (augmented Demo.table "x" vs))
     = Z.of_nat (nrows Demo.table) + 2
  /\ rng (snd (fst (run argv MoreDemo.start Demo.files)))
     = snd (gauss Cycle.legacy_gauss (Z.to_nat 2) 0%nat)
  /\ logged (snd (fst (run argv MoreDemo.start Demo.files)))
     = [(INFO, success_message "x" 2);
        (INFO, "Outlier injection complete. Output saved to 'out.csv'."%string)].
Proof.
  apply (main_writes_the_augmented_table Cycle.legacy_gauss Demo.allocation
           Demo.py_int Demo.py_float Demo.argparse_dashed Demo.read_csv
           Demo.to_csv (MoreDemo.argv "x") (MoreDemo.cli "x") MoreDemo.start
           Demo.files Demo.table x12345 _
           eq_refl eq_refl eq_refl eq_refl eq_refl ltac:(cbn; lia) eq_refl).
  - grant.
  - reflexivity.
Defined.

Lemma infinite_multiplier_on_zero_scale_witness :
  exists r,
    fst (inject Demo.df "x" 3 inf (Demo.world_of Demo.constant)) = Some r
    /\ heap (snd (inject Demo.df "x" 3 inf (Demo.world_of Demo.constant))) !! r
       = Some (PyFrame (augmented Demo.constant "x" [nan; nan; nan])).
Proof.
  apply (infinite_multiplier_on_zero_scale Cycle.legacy_gauss Demo.allocation
           (Demo.world_of Demo.constant) Demo.df Demo.constant "x"
           (Int64 [5; 5; 5]) 3
           eq_refl eq_refl eq_refl eq_refl ltac:(lia)).
  - grant.
  - reflexivity.
Defined.

End MoreRuns.
